(** * VIF hot-plug plugging driver: a shallow embedding and its properties

    Source: neutron/plugins/cisco/device_manager/plugging_drivers/
            vif_hotplug_plugging_driver.py   (class VIFHotPlugPluggingDriver)

    The driver is glue code around collaborators it does not own: the core
    plugin (create_port / update_port / delete_port), the database session
    (port query), the device manager (l3_tenant_id) and the service VM manager
    (interface_attach / interface_detach).  The embedding takes those
    collaborators as parameters (a record of stubs acting on an arbitrary
    world [W]) and runs the driver in a small state-and-exception monad that
    also records a chronological trace of every collaborator call, every
    [time.sleep] and every log record. *)

From stdpp Require Import gmap strings list.
From Equations Require Import Equations.
From Stdlib Require Import ZArith NArith Lia.

Set Warnings "-register-all".

Local Open Scope Z_scope.

(** ** Python values *)

(** The values the driver handles: [None], booleans, strings, the sentinel
    [attributes.ATTR_NOT_SPECIFIED], lists and dicts with string keys. *)
Inductive pyval : Type :=
| PNone
| PBool (b : bool)
| PStr (s : string)
| PNotSpecified
| PList (l : list pyval)
| PDict (d : gmap string pyval).

(** A port as the plugin hands it around: a dict. *)
Abbreviation pydict := (gmap string pyval).

(** Python truthiness ([if v:], [a and b]). *)
Definition truthy (v : pyval) : bool :=
  match v with
  | PNone => false
  | PBool b => b
  | PStr s => negb (String.eqb s "")
  | PNotSpecified => true
  | PList l => negb (Nat.eqb (length l) 0)
  | PDict d => negb (Nat.eqb (size d) 0)
  end.

(** [v == s] for a Python value against a (non-null) string column. *)
Definition py_eq_str (v : pyval) (s : string) : bool :=
  match v with
  | PStr t => String.eqb t s
  | _ => false
  end.

(** [v is None] *)
Definition is_None (v : pyval) : bool :=
  match v with PNone => true | _ => false end.

(** Embedding of an optional dict ([None] or a dict) as a value. *)
Definition of_optdict (o : option pydict) : pyval :=
  match o with None => PNone | Some d => PDict d end.

(** ** Exceptions *)

(** Modelled from the spec: the exception classes of [neutron.common.exceptions]
    (imported as [n_exc], not part of the driver's file).  [PortNotFound] is a
    sub-kind of [NeutronException] (the registry error); the remaining
    constructors are Python exceptions outside that hierarchy.  Every
    constructor is an [Exception]. *)
Inductive exn : Type :=
| PortNotFound (msg : string)
| NeutronException (msg : string)
| KeyError (key : string)
| OtherException (msg : string).

(** [isinstance(e, n_exc.NeutronException)] *)
Definition isinstance_NeutronException (e : exn) : bool :=
  match e with
  | PortNotFound _ | NeutronException _ => true
  | KeyError _ | OtherException _ => false
  end.

(** [isinstance(e, n_exc.PortNotFound)] *)
Definition isinstance_PortNotFound (e : exn) : bool :=
  match e with
  | PortNotFound _ => true
  | _ => false
  end.

(** [isinstance(e, Exception)] *)
Definition isinstance_Exception (e : exn) : bool := true.

(** The result of running a piece of Python: a value or a raised exception. *)
Inductive outcome (A : Type) : Type :=
| Ret (a : A)
| Raise (e : exn).
Arguments Ret {A} a.
Arguments Raise {A} e.

(** [d[k]] on a dict: [KeyError] when the key is absent. *)
Definition getitem (d : pydict) (k : string) : outcome pyval :=
  match d !! k with
  | Some v => Ret v
  | None => Raise (KeyError k)
  end.

(** [d.get(k)]: [None] when the key is absent. *)
Definition dict_get (d : pydict) (k : string) : pyval :=
  default PNone (d !! k).

(** ** Rows of the port table *)

(** A row of [models_v2.Port]; the columns the driver reads are non-null
    strings. *)
Record Port : Type := {
  port_id : string;
  port_network_id : string;
  port_device_id : string;
  port_device_owner : string;
  port_tenant_id : string }.

(** ** Module constants *)

Definition DELETION_ATTEMPTS : Z := 4.
Definition SECONDS_BETWEEN_DELETION_ATTEMPTS : Z := 3.

(** ** Log messages *)

(** The format strings of the driver's log records, in source order. *)
Definition MSG_RETRYING : string :=
  "%(ex)s. Retrying in %(delay)d seconds.".
Definition MSG_CREATE_FAILED : string :=
  "Error %s when creating management port. " +:+ "Cleaning up.".
Definition MSG_IGNORING_PORT : string :=
  "Ignoring hosting device port %s while assembling "
  +:+ "resources since that port is not on the management "
  +:+ "network".
Definition MSG_UNABLE_TO_DELETE : string :=
  "Unable to delete port:%(port)s after %(tries)d "
  +:+ "attempts due to exception %(exception)s. "
  +:+ "Skipping it.".
Definition MSG_DELETED : string := "Port %s deleted successfully".
Definition MSG_NOT_FOUND : string :=
  "Trying to delete port:%s, but port is not found".
Definition MSG_SETUP_DONE : string :=
  "Setup logical port completed for port:%s".
Definition MSG_ATTACH_FAILED : string :=
  "Failed to attach interface corresponding to port:"
  +:+ "%(p_id)s on hosting device:%(hd_id)s due to "
  +:+ "error %(str(e))".
Definition MSG_PORT_ID_IS_NONE : string :=
  "Port id is None! Cannot remove port " +:+ "from hosting_device:%s".
Definition MSG_TEARDOWN_DONE : string :=
  "Done teardown logical port connectivity for port:%s".
Definition MSG_DETACH_FAILED : string :=
  "Failed to detach interface corresponding to port:"
  +:+ "%(p_id)s on hosting device:%(hd_id)s due to "
  +:+ "error %(str(e))".

(** ** Observable events *)

Inductive level : Type := DEBUG | INFO | WARNING | ERROR.

Inductive event (context : Type) : Type :=
| EvCreatePort (c : context) (p_spec : pydict)
| EvDeletePort (c : context) (port : pyval)
| EvUpdatePort (c : context) (port : pyval) (body : pydict)
| EvL3TenantId
| EvInterfaceAttach (hosting_device_id port : pyval)
| EvInterfaceDetach (hosting_device_id port : pyval)
| EvDeleteResources (c : context) (tenant_id : pyval) (mgmt_port : option pydict)
| EvSleep (seconds : N)
| EvLog (lvl : level) (fmt : string).
Arguments EvCreatePort {context}.
Arguments EvDeletePort {context}.
Arguments EvUpdatePort {context}.
Arguments EvL3TenantId {context}.
Arguments EvInterfaceAttach {context}.
Arguments EvInterfaceDetach {context}.
Arguments EvDeleteResources {context}.
Arguments EvSleep {context}.
Arguments EvLog {context}.

(** ** Collaborators *)

(** The driver's collaborators, acting on a world [W] of their own.  A stub
    may return or raise, and changes the world either way. *)
Record collaborators (context W : Type) : Type := {
  (* self._core_plugin *)
  create_port : context -> pydict -> W -> outcome pydict * W;
  update_port : context -> pyval -> pydict -> W -> outcome pydict * W;
  delete_port : context -> pyval -> W -> outcome unit * W;
  (* context.session.query(models_v2.Port): the rows in enumeration order *)
  query_Port : context -> W -> list Port;
  (* self._dev_mgr *)
  l3_tenant_id : W -> outcome pyval * W;
  (* self._dev_mgr.svc_vm_mgr *)
  interface_attach : pyval -> pyval -> W -> outcome unit * W;
  interface_detach : pyval -> pyval -> W -> outcome unit * W;
  (* context.elevated() *)
  elevated : context -> context }.
Arguments create_port {context W}.
Arguments update_port {context W}.
Arguments delete_port {context W}.
Arguments query_Port {context W}.
Arguments l3_tenant_id {context W}.
Arguments interface_attach {context W}.
Arguments interface_detach {context W}.
Arguments elevated {context W}.

(** ** The monad: world, trace and exceptions *)

Record state (context W : Type) : Type := {
  world : W;
  trace : list (event context) }.
Arguments world {context W}.
Arguments trace {context W}.
Arguments Build_state {context W}.

Definition M (context W A : Type) : Type :=
  state context W -> outcome A * state context W.

Section Monad.
Context {context W : Type}.

#[export] Instance M_ret : MRet (M context W) :=
  fun A (a : A) s => (Ret a, s).

#[export] Instance M_bind : MBind (M context W) :=
  fun A B (k : A -> M context W B) (m : M context W A) s =>
    match m s with
    | (Ret a, s') => k a s'
    | (Raise e, s') => (Raise e, s')
    end.

(** A pure expression that may raise ([raise e] is [lift_outcome (Raise e)]). *)
Definition lift_outcome {A} (o : outcome A) : M context W A := fun s => (o, s).

(** [try: body / except <matches> as e: handler e]; an exception the
    clause does not match keeps propagating. *)
Definition try_except {A} (body : M context W A) (matches : exn -> bool)
    (handler : exn -> M context W A) : M context W A :=
  fun s => match body s with
           | (Ret a, s') => (Ret a, s')
           | (Raise e, s') => if matches e then handler e s' else (Raise e, s')
           end.

(** Append one event to the trace. *)
Definition emit (ev : event context) : M context W unit :=
  fun s => (Ret tt, {| world := world s; trace := trace s ++ [ev] |}).

(** A call to a collaborator: recorded, then run on the world. *)
Definition call {A} (ev : event context) (stub : W -> outcome A * W) :
    M context W A :=
  fun s => let '(r, w) := stub (world s) in
           (r, {| world := w; trace := trace s ++ [ev] |}).

(** [LOG.<lvl>(fmt, ...)] *)
Definition LOG (lvl : level) (fmt : string) : M context W unit :=
  emit (EvLog lvl fmt).

(** [time.sleep(seconds)] *)
Definition sleep (seconds : N) : M context W unit := emit (EvSleep seconds).

End Monad.

(** ** The retry decorator *)

Section Retry.
Context {context W Args A : Type}.
Variable ExceptionToCheck : exn -> bool.
Variables (tries : Z) (delay backoff : N).
Variable f : Args -> M context W A.
Variable args : Args.

(** The [while mtries > 1] loop of [f_retry] together with the final
    [return f(...)], as a function of the loop variables.  [tries] is any
    integer; the durations handed to [time.sleep] are natural numbers of
    seconds. *)
Equations? f_retry_loop (mtries : Z) (mdelay : N) : M context W A
  by wf (Z.to_nat mtries) lt :=
f_retry_loop mtries mdelay with Z_lt_dec 1 mtries := {
  | left _ =>
      try_except (f args) ExceptionToCheck (fun e =>
        LOG ERROR MSG_RETRYING;;
        sleep mdelay;;
        f_retry_loop (mtries - 1) (mdelay * backoff)%N)
  | right _ => f args }.
Proof. lia. Qed.

Definition f_retry : M context W A := f_retry_loop tries delay.

End Retry.

(** [retry(ExceptionToCheck, tries, delay, backoff)(f)], with the defaults
    [tries=4, delay=3, backoff=2] left to the call site. *)
Definition retry {context W Args A} (ExceptionToCheck : exn -> bool)
    (tries : Z) (delay backoff : N) (f : Args -> M context W A) :
    Args -> M context W A :=
  fun args => f_retry ExceptionToCheck tries delay backoff f args.

(** ** The driver: class VIFHotPlugPluggingDriver *)

Section Driver.
Context {context W : Type}.
Variable env : collaborators context W.

(** Read-only access to the world. *)
Definition read {A} (g : W -> A) : M context W A :=
  fun s => (Ret (g (world s)), s).

(** The body of [_delete_resource_port], before the decorator is applied. *)
Definition _delete_resource_port_undecorated (a : context * pyval) :
    M context W unit :=
  let '(c, port_id) := a in
  try_except
    (call (EvDeletePort c port_id) (delete_port env c port_id);;
     LOG INFO MSG_DELETED)
    isinstance_PortNotFound
    (fun _ => LOG WARNING MSG_NOT_FOUND).

(** [@retry(n_exc.NeutronException, DELETION_ATTEMPTS, 1)]; the decorator's
    default [backoff=2] applies. *)
Definition _delete_resource_port (c : context) (port_id : pyval) :
    M context W unit :=
  retry isinstance_NeutronException DELETION_ATTEMPTS 1 2
        _delete_resource_port_undecorated (c, port_id).

(** Entry into the method is recorded ([EvDeleteResources]) so that the
    cleanup call made by [create_hosting_device_resources] is observable. *)
Definition delete_hosting_device_resources (c : context) (tenant_id : pyval)
    (mgmt_port : option pydict) : M context W unit :=
  emit (EvDeleteResources c tenant_id mgmt_port);;
  match mgmt_port with
  | None => mret tt
  | Some port =>
      try_except
        (port_id ← lift_outcome (getitem port "id");
         _delete_resource_port c port_id)
        isinstance_NeutronException
        (fun e =>
           _ ← lift_outcome (getitem port "id");
           LOG ERROR MSG_UNABLE_TO_DELETE)
  end.

(** The port specification built for the management port. *)
Definition p_spec_of (tenant_id mgmt_nw_id complementary_id : pyval) : pydict :=
  {[ "port" := PDict
       {[ "tenant_id" := tenant_id;
          "admin_state_up" := PBool true;
          "name" := PStr "mgmt";
          "network_id" := mgmt_nw_id;
          "mac_address" := PNotSpecified;
          "fixed_ips" := PNotSpecified;
          "device_id" := PStr "";
          "device_owner" := complementary_id ]} ]}.

(** The bundle [{'mgmt_port': mgmt_port, 'ports': []}]. *)
Definition bundle (mgmt_port : option pydict) : pydict :=
  {[ "mgmt_port" := of_optdict mgmt_port; "ports" := PList [] ]}.

Definition create_hosting_device_resources (c : context)
    (complementary_id tenant_id : pyval) (mgmt_context : option pydict)
    (max_hosted : pyval) : M context W pydict :=
  let mgmt_port : option pydict := None in
  mgmt_port ←
    match mgmt_context with
    | Some d =>
        if truthy (PDict d) && truthy (dict_get d "mgmt_nw_id")
           && truthy tenant_id
        then
          mgmt_nw_id ← lift_outcome (getitem d "mgmt_nw_id");
          let p_spec := p_spec_of tenant_id mgmt_nw_id complementary_id in
          try_except
            (p ← call (EvCreatePort c p_spec) (create_port env c p_spec);
             mret (Some p))
            isinstance_NeutronException
            (fun e =>
               LOG ERROR MSG_CREATE_FAILED;;
               delete_hosting_device_resources c tenant_id mgmt_port;;
               mret None)
        else mret mgmt_port
    | None => mret mgmt_port
    end;
  mret (bundle mgmt_port).

(** The [for port in query] loop; [mret (Some port)] is the [break]. *)
Fixpoint for_port_in_query (query : list Port) (mgmt_nw_id : pyval)
    (mgmt_port : option Port) : M context W (option Port) :=
  match query with
  | [] => mret mgmt_port
  | port :: rest =>
      if negb (py_eq_str mgmt_nw_id (port_network_id port)) then
        LOG DEBUG MSG_IGNORING_PORT;;
        for_port_in_query rest mgmt_nw_id mgmt_port
      else mret (Some port)
  end.

(** The filter [or_(Port.device_id == id, Port.device_owner == complementary_id)]. *)
Definition query_filter (id complementary_id : pyval) (port : Port) : bool :=
  py_eq_str id (port_device_id port)
  || py_eq_str complementary_id (port_device_owner port).

Definition get_hosting_device_resources (c : context)
    (id complementary_id tenant_id mgmt_nw_id : pyval) :
    M context W (gmap string (option Port)) :=
  let mgmt_port : option Port := None in
  query ← read (query_Port env c);
  let query := List.filter (query_filter id complementary_id) query in
  mgmt_port ← for_port_in_query query mgmt_nw_id mgmt_port;
  mret {[ "mgmt_port" := mgmt_port ]}.

(** The body sent to [update_port] by [setup_logical_port_connectivity]. *)
Definition ownership_reset (l3admin_tenant_id : pyval) : pydict :=
  {[ "port" := PDict
       {[ "device_owner" := PStr "";
          "device_id" := PStr "";
          "tenant_id" := l3admin_tenant_id ]} ]}.

Definition setup_logical_port_connectivity (c : context) (port_db : pydict)
    (hosting_device_id : pyval) : M context W unit :=
  l3admin_tenant_id ← call EvL3TenantId (l3_tenant_id env);
  port_id ← lift_outcome (getitem port_db "id");
  call (EvUpdatePort (elevated env c) port_id
                     (ownership_reset l3admin_tenant_id))
       (update_port env (elevated env c) port_id
                    (ownership_reset l3admin_tenant_id));;
  try_except
    (port_id ← lift_outcome (getitem port_db "id");
     call (EvInterfaceAttach hosting_device_id port_id)
          (interface_attach env hosting_device_id port_id);;
     _ ← lift_outcome (getitem port_db "id");
     LOG DEBUG MSG_SETUP_DONE)
    isinstance_Exception
    (fun e =>
       _ ← lift_outcome (getitem port_db "id");
       LOG ERROR MSG_ATTACH_FAILED).

Definition teardown_logical_port_connectivity (c : context)
    (port_db : option pydict) (hosting_device_id : pyval) : M context W unit :=
  match port_db with
  | None => LOG ERROR MSG_PORT_ID_IS_NONE
  | Some d =>
      if is_None (dict_get d "id") then
        LOG ERROR MSG_PORT_ID_IS_NONE
      else
        try_except
          (port_id ← lift_outcome (getitem d "id");
           call (EvInterfaceDetach hosting_device_id port_id)
                (interface_detach env hosting_device_id port_id);;
           _ ← lift_outcome (getitem d "id");
           LOG DEBUG MSG_TEARDOWN_DONE)
          isinstance_Exception
          (fun e =>
             _ ← lift_outcome (getitem d "id");
             LOG ERROR MSG_DETACH_FAILED)
  end.

Definition extend_hosting_port_info (c : context)
    (port_db hosting_device hosting_info : pyval) : M context W unit :=
  mret tt.

Definition allocate_hosting_port (c : context) (router_id : pyval)
    (port_db : pydict) (network_type hosting_device_id : pyval) :
    M context W pydict :=
  port_id ← lift_outcome (getitem port_db "id");
  mret {[ "allocated_port_id" := port_id; "allocated_vlan" := PNone ]}.

End Driver.

(** ** Vocabulary for the statements *)

Section Vocabulary.
Context {context W : Type}.

(** An operation of the outside world, run inside the monad: it acts on the
    world and leaves the trace to its caller.  Whatever the operation does,
    its own logging included, is part of the world it acts on, which is
    arbitrary; the trace then holds the decorator's records only. *)
Definition lift_op {Args A} (op : Args -> W -> outcome A * W) :
    Args -> M context W A :=
  fun a s => let '(r, w) := op a (world s) in
             (r, {| world := w; trace := trace s |}).

(** The world after one invocation of [op]. *)
Definition world_after {Args A} (op : Args -> W -> outcome A * W)
    (a : Args) (w : W) : W :=
  snd (op a w).

(** [op] fails on every invocation, each time with an error the decorator
    was told to retry on. *)
Definition always_fails_retryably {Args A} (ExceptionToCheck : exn -> bool)
    (op : Args -> W -> outcome A * W) (a : Args) : Prop :=
  forall w, exists e, fst (op a w) = Raise e /\ ExceptionToCheck e = true.

(** The delays [delay; delay*backoff; ...; delay*backoff^(n-1)]. *)
Definition backoff_delays (delay backoff : N) (n : nat) : list N :=
  List.map (fun i => delay * backoff ^ N.of_nat i)%N (seq 0 n).

(** What the decorator leaves in the trace around each sleep. *)
Definition retry_pauses (delays : list N) : list (event context) :=
  flat_map (fun d => [EvLog ERROR MSG_RETRYING;
                      EvSleep d]) delays.

(** The state one invocation of [f] leaves, and the state after the
    decorator has logged and slept for [d] seconds. *)
Definition attempt {Args A} (f : Args -> M context W A) (a : Args)
    (s : state context W) : state context W :=
  snd (f a s).

Definition pause (d : N) (s : state context W) : state context W :=
  {| world := world s; trace := trace s ++ retry_pauses [d] |}.

(** One round of the retry loop: an invocation of [f], then the decorator's
    error record and its sleep of [d] seconds. *)
Definition retry_round {Args A} (f : Args -> M context W A) (a : Args)
    (s : state context W) (d : N) : state context W :=
  pause d (attempt f a s).

(** The state after [length delays + 1] invocations of [f], with a pause of
    each of the [delays] between consecutive ones. *)
Fixpoint exhaust {Args A} (f : Args -> M context W A) (a : Args)
    (delays : list N) (s : state context W) : state context W :=
  match delays with
  | [] => attempt f a s
  | d :: delays' => exhaust f a delays' (pause d (attempt f a s))
  end.

End Vocabulary.

(** The durations of the sleeps in a trace, in order. *)
Fixpoint sleeps {context} (tr : list (event context)) : list N :=
  match tr with
  | [] => []
  | EvSleep d :: tr' => d :: sleeps tr'
  | _ :: tr' => sleeps tr'
  end.

(** The registry deletions in a trace, in order. *)
Fixpoint deletions {context} (tr : list (event context)) : list pyval :=
  match tr with
  | [] => []
  | EvDeletePort _ p :: tr' => p :: deletions tr'
  | _ :: tr' => deletions tr'
  end.

(** The cleanup calls ([delete_hosting_device_resources]) in a trace: the
    port reference each one was given. *)
Fixpoint cleanups {context} (tr : list (event context)) :
    list (option pydict) :=
  match tr with
  | [] => []
  | EvDeleteResources _ _ p :: tr' => p :: cleanups tr'
  | _ :: tr' => cleanups tr'
  end.

(** The management context names a management network: it is a dict whose
    [mgmt_nw_id] is truthy. *)
Definition names_mgmt_network (mgmt_context : option pydict) : bool :=
  match mgmt_context with
  | None => false
  | Some d => truthy (dict_get d "mgmt_nw_id")
  end.

(** [port['network_id'] == mgmt_nw_id] *)
Definition on_network (mgmt_nw_id : pyval) (port : Port) : bool :=
  py_eq_str mgmt_nw_id (port_network_id port).

(** The elements enumerated before the first one that satisfies [P] (all of
    them when none does). *)
Fixpoint before_first {A} (P : A -> bool) (l : list A) : list A :=
  match l with
  | [] => []
  | x :: l' => if P x then [] else x :: before_first P l'
  end.

(** [true] when the outcome is a raised exception. *)
Definition raised {A} (o : outcome A) : bool :=
  match o with Ret _ => false | Raise _ => true end.

(** The identifier a port record carries, when it carries one: [None] for a
    null record, an absent [id] and a null [id]. *)
Definition identifier (port_db : option pydict) : option pyval :=
  match port_db with
  | None => None
  | Some d =>
      match d !! "id" with
      | None | Some PNone => None
      | Some v => Some v
      end
  end.

(** The world after one more call to the registry's delete. *)
Definition after_delete {context W} (env : collaborators context W)
    (c : context) (port_id : pyval) (w : W) : W :=
  snd (delete_port env c port_id w).

(** What [k] failed attempts to delete a port leave in the trace: each one
    the call to the registry, the decorator's error record and its sleep. *)
Definition failed_attempts {context} (c : context) (port_id : pyval)
    (delays : list N) : list (event context) :=
  flat_map (fun d => [EvDeletePort c port_id; EvLog ERROR MSG_RETRYING;
                      EvSleep d]) delays.

(** The port creations in a trace: the specification each one was given. *)
Fixpoint creations {context} (tr : list (event context)) : list pydict :=
  match tr with
  | [] => []
  | EvCreatePort _ p_spec :: tr' => p_spec :: creations tr'
  | _ :: tr' => creations tr'
  end.

(** ** Stubs for concrete runs *)

(** Collaborators that count the calls made to the plugin and to the
    service VM manager (the world is the counter) and fail as scripted: each
    of those five calls raises the given exception, or succeeds when none is
    given.  The device manager always answers [l3-admin].  The context is a
    flag, [true] for the elevated one. *)
Definition scripted_env (rows : list Port)
    (create_exn update_exn delete_exn attach_exn detach_exn : option exn) :
    collaborators bool nat :=
  let reply {A} (ok : A) (o : option exn) (n : nat) : outcome A * nat :=
    (match o with None => Ret ok | Some e => Raise e end, S n) in
  {| create_port := fun _ _ => reply ({[ "id" := PStr "p1" ]} : pydict) create_exn;
     update_port := fun _ _ body => reply body update_exn;
     delete_port := fun _ _ => reply tt delete_exn;
     query_Port := fun _ _ => rows;
     l3_tenant_id := fun n => (Ret (PStr "l3-admin"), n);
     interface_attach := fun _ _ => reply tt attach_exn;
     interface_detach := fun _ _ => reply tt detach_exn;
     elevated := fun _ => true |}.

(** A registry that holds port identifiers: deleting a port it holds removes
    it, deleting any other reports [PortNotFound]. *)
Definition registry_env : collaborators bool (list string) :=
  {| create_port := fun _ _ w =>
       (Ret ({[ "id" := PStr "p1" ]} : pydict), "p1" :: w);
     update_port := fun _ _ body w => (Ret body, w);
     delete_port := fun _ port w =>
       match port with
       | PStr i =>
           if bool_decide (i ∈ w)
           then (Ret tt, List.filter (fun j => negb (String.eqb i j)) w)
           else (Raise (PortNotFound i), w)
       | _ => (Raise (PortNotFound ""), w)
       end;
     query_Port := fun _ _ => [];
     l3_tenant_id := fun w => (Ret (PStr "l3-admin"), w);
     interface_attach := fun _ _ w => (Ret tt, w);
     interface_detach := fun _ _ w => (Ret tt, w);
     elevated := fun _ => true |}.

(** An operation that counts its invocations and always fails. *)
Definition counting_failure (e : exn) (_ : unit) (n : nat) :
    outcome unit * nat :=
  (Raise e, S n).

(** An operation that counts its invocations, fails with a registry error
    the first time and with an error of another kind afterwards. *)
Definition flaky_op (_ : unit) (n : nat) : outcome unit * nat :=
  match n with
  | O => (Raise (NeutronException "busy"), S n)
  | S _ => (Raise (OtherException "broken"), S n)
  end.

(** The initial state of a run: a world and an empty trace. *)
Definition start {context W} (w : W) : state context W :=
  {| world := w; trace := [] |}.

(** The ports of the dual-key discovery example. *)
Definition p1 : Port :=
  {| port_id := "p1"; port_network_id := "mgmt"; port_device_id := "hd1";
     port_device_owner := ""; port_tenant_id := "t1" |}.
Definition p2 : Port :=
  {| port_id := "p2"; port_network_id := "mgmt"; port_device_id := "";
     port_device_owner := "comp1"; port_tenant_id := "t1" |}.
Definition p3 : Port :=
  {| port_id := "p3"; port_network_id := "data"; port_device_id := "hd1";
     port_device_owner := "comp1"; port_tenant_id := "t1" |}.

(** Inputs of the concrete runs: a management context naming the network
    [mgmt], and a port dict with identifier [p1]. *)
Definition mgmt_context_mgmt : pydict := {[ "mgmt_nw_id" := PStr "mgmt" ]}.
Definition port_dict_p1 : pydict := {[ "id" := PStr "p1" ]}.

(** A call to the registry's delete that counts its invocations, leaves
    its record in the trace and always fails with a registry error. *)
Definition traced_failure (_ : unit) : M bool nat unit :=
  call (EvDeletePort false (PStr "p1"))
       (counting_failure (NeutronException "busy") tt).

(** An operation that counts its invocations, fails with a registry error
    the first time and returns afterwards. *)
Definition recovering_op (_ : unit) (n : nat) : outcome unit * nat :=
  match n with
  | O => (Raise (NeutronException "busy"), S n)
  | S _ => (Ret tt, S n)
  end.

(** Collaborators whose registry is busy at the first delete and has lost
    the port by the second; the world counts the deletes. *)
Definition vanishing_port_env : collaborators bool nat :=
  let base := scripted_env [] None None None None None in
  {| create_port := create_port base;
     update_port := update_port base;
     delete_port := fun _ _ n =>
       match n with
       | O => (Raise (NeutronException "busy"), S n)
       | S _ => (Raise (PortNotFound "p1"), S n)
       end;
     query_Port := query_Port base;
     l3_tenant_id := l3_tenant_id base;
     interface_attach := interface_attach base;
     interface_detach := interface_detach base;
     elevated := elevated base |}.

(** Collaborators whose device manager cannot name the L3 admin tenant. *)
Definition no_tenant_env : collaborators bool nat :=
  let base := scripted_env [] None None None None None in
  {| create_port := create_port base;
     update_port := update_port base;
     delete_port := delete_port base;
     query_Port := query_Port base;
     l3_tenant_id := fun n =>
       (Raise (OtherException "identity service unreachable"), S n);
     interface_attach := interface_attach base;
     interface_detach := interface_detach base;
     elevated := elevated base |}.

(** ** Running the monad *)

Ltac run :=
  unfold mbind, M_bind, mret, M_ret, try_except, call, LOG, sleep, emit,
    lift_outcome, read; simpl.

(** ** The retry decorator *)

Section RetryFacts.
Context {context W Args A : Type}.
Variable ExceptionToCheck : exn -> bool.
Variable backoff : N.

Lemma f_retry_loop_eq (f : Args -> M context W A) args mtries mdelay :
  f_retry_loop ExceptionToCheck backoff f args mtries mdelay =
  if 1 <? mtries then
    try_except (f args) ExceptionToCheck (fun e =>
      LOG ERROR MSG_RETRYING;;
      sleep mdelay;;
      f_retry_loop ExceptionToCheck backoff f args (mtries - 1)
                   (mdelay * backoff)%N)
  else f args.
Proof.
  rewrite f_retry_loop_equation_1.
  destruct (Z_lt_dec 1 mtries) as [H|H]; simpl;
    destruct (Z.ltb_spec 1 mtries); solve [reflexivity | lia].
Qed.

(** An attempt that returns ends the loop with its result. *)
Lemma f_retry_loop_return (f : Args -> M context W A) args mtries mdelay
    s a s1 :
  f args s = (Ret a, s1) ->
  f_retry_loop ExceptionToCheck backoff f args mtries mdelay s = (Ret a, s1).
Proof.
  intros Hf. rewrite f_retry_loop_eq.
  destruct (1 <? mtries); [unfold try_except; rewrite Hf|]; auto.
Qed.

(** A trapped failure: log, sleep, and go round the loop again. *)
Lemma f_retry_loop_again (f : Args -> M context W A) args mtries mdelay
    s e s1 :
  1 < mtries ->
  f args s = (Raise e, s1) ->
  ExceptionToCheck e = true ->
  f_retry_loop ExceptionToCheck backoff f args mtries mdelay s
  = f_retry_loop ExceptionToCheck backoff f args (mtries - 1)
      (mdelay * backoff)%N
      {| world := world s1; trace := trace s1 ++ retry_pauses [mdelay] |}.
Proof.
  intros Hm Hf He. rewrite f_retry_loop_eq.
  destruct (Z.ltb_spec 1 mtries); [|lia].
  unfold try_except. rewrite Hf, He. run.
  rewrite <- app_assoc. reflexivity.
Qed.

(** A failure that ends the run: the one of the last attempt, or one whose
    error is not among those to retry on. *)
Lemma f_retry_loop_escape (f : Args -> M context W A) args mtries mdelay
    s e s1 :
  f args s = (Raise e, s1) ->
  mtries <= 1 \/ ExceptionToCheck e = false ->
  f_retry_loop ExceptionToCheck backoff f args mtries mdelay s = (Raise e, s1).
Proof.
  intros Hf Hend. rewrite f_retry_loop_eq.
  destruct (Z.ltb_spec 1 mtries); [|exact Hf].
  destruct Hend as [?|He]; [lia|].
  unfold try_except. rewrite Hf, He. reflexivity.
Qed.

(** Whatever the loop raises was raised by some attempt. *)
Lemma f_retry_loop_raise_inv (f : Args -> M context W A) args (P : exn -> Prop) :
  (forall s e s1, f args s = (Raise e, s1) -> P e) ->
  forall n mtries mdelay s e s1,
    Z.to_nat mtries = n ->
    f_retry_loop ExceptionToCheck backoff f args mtries mdelay s
      = (Raise e, s1) ->
    P e.
Proof.
  intros HP n. induction n as [n IH] using lt_wf_ind.
  intros mtries mdelay s e s1 Hn. rewrite f_retry_loop_eq.
  destruct (Z.ltb_spec 1 mtries) as [Hlt|Hge]; [|apply HP].
  unfold try_except. destruct (f args s) as [[a|e0] s0] eqn:Hf; [discriminate|].
  destruct (ExceptionToCheck e0) eqn:He0.
  - run. apply (IH (Z.to_nat (mtries - 1))); lia.
  - intros [= <- <-]. eapply HP, Hf.
Qed.

Lemma backoff_delays_S delay n :
  backoff_delays delay backoff (S n)
  = delay :: backoff_delays (delay * backoff) backoff n.
Proof.
  unfold backoff_delays. simpl. f_equal.
  - rewrite N.pow_0_r. lia.
  - rewrite <- seq_shift, List.map_map. apply List.map_ext. intros i.
    rewrite Nat2N.inj_succ, N.pow_succ_r'. lia.
Qed.

Lemma sleeps_app (tr1 tr2 : list (event context)) :
  sleeps (tr1 ++ tr2) = sleeps tr1 ++ sleeps tr2.
Proof.
  induction tr1 as [|[] tr1 IH]; simpl; rewrite ?IH; reflexivity.
Qed.

Lemma sleeps_retry_pauses (delays : list N) :
  sleeps (@retry_pauses context delays) = delays.
Proof. induction delays as [|d l IH]; simpl; [|rewrite IH]; reflexivity. Qed.

(** Exhaustion for an arbitrary decorated function, one that may leave
    events of its own in the trace: when every invocation fails with an
    error to retry on, the run is [tries] invocations, with the pauses in
    between, and it raises. *)
Lemma f_retry_loop_exhaust (f : Args -> M context W A) args :
  (forall s, exists e,
     fst (f args s) = Raise e /\ ExceptionToCheck e = true) ->
  forall n mdelay s, exists e,
    f_retry_loop ExceptionToCheck backoff f args (Z.of_nat (S n)) mdelay s
    = (Raise e, exhaust f args (backoff_delays mdelay backoff n) s).
Proof.
  intros Hfail n. induction n as [|n IH]; intros mdelay s;
    destruct (Hfail s) as (e & He & Hc);
    destruct (f args s) as [r s1] eqn:Hf; simpl in He; subst r.
  - exists e. rewrite (f_retry_loop_escape f args _ _ s e s1 Hf) by (left; lia).
    unfold backoff_delays. simpl. unfold attempt. rewrite Hf. reflexivity.
  - rewrite (f_retry_loop_again f args _ _ s e s1) by (auto; lia).
    replace (Z.of_nat (S (S n)) - 1) with (Z.of_nat (S n)) by lia.
    destruct (IH (mdelay * backoff)%N
                 {| world := world s1; trace := trace s1 ++ retry_pauses [mdelay] |})
      as (e' & He').
    exists e'. rewrite He', backoff_delays_S. simpl.
    unfold attempt at 1, pause. rewrite Hf. reflexivity.
Qed.

Variable op : Args -> W -> outcome A * W.
Variable args : Args.

Lemma lift_op_run (s : state context W) :
  lift_op op args s
  = (fst (op args (world s)),
     {| world := world_after op args (world s); trace := trace s |}).
Proof.
  unfold lift_op, world_after. destruct (op args (world s)); reflexivity.
Qed.

(** [k] trapped failures in a row take the loop [k] rounds further: [k]
    invocations, [k] sleeps. *)
Lemma f_retry_loop_failures k : forall mtries mdelay (s : state context W),
  Z.of_nat k < Z.max 1 mtries ->
  (forall i, (i < k)%nat -> exists e,
     fst (op args (Nat.iter i (world_after op args) (world s))) = Raise e
     /\ ExceptionToCheck e = true) ->
  f_retry_loop ExceptionToCheck backoff (lift_op op) args mtries mdelay s
  = f_retry_loop ExceptionToCheck backoff (lift_op op) args
      (mtries - Z.of_nat k) (mdelay * backoff ^ N.of_nat k)%N
      {| world := Nat.iter k (world_after op args) (world s);
         trace := trace s ++ retry_pauses (backoff_delays mdelay backoff k) |}.
Proof.
  induction k as [|k IH]; intros mtries mdelay s Hk Hfail.
  - simpl. rewrite app_nil_r, Z.sub_0_r, N.mul_1_r. destruct s; reflexivity.
  - destruct (Hfail 0%nat ltac:(lia)) as (e & He & Hc). simpl in He.
    rewrite (f_retry_loop_again _ args mtries mdelay s e
               {| world := world_after op args (world s); trace := trace s |})
      by (auto; try lia; rewrite lift_op_run, He; reflexivity).
    rewrite IH; simpl world; simpl trace.
    + rewrite backoff_delays_S, <- Nat.iter_succ_r, <- app_assoc.
      replace (mtries - 1 - Z.of_nat k) with (mtries - Z.of_nat (S k)) by lia.
      replace (mdelay * backoff * backoff ^ N.of_nat k)%N
        with (mdelay * backoff ^ N.of_nat (S k))%N
        by (rewrite Nat2N.inj_succ, N.pow_succ_r'; lia).
      reflexivity.
    + lia.
    + intros i Hi. rewrite <- Nat.iter_succ_r. apply Hfail. lia.
Qed.

(** Exhaustion seen from the world alone: an operation of the outside world
    that always fails with a retryable error has acted [tries] times on
    the world when the decorated call raises, and the trace holds the
    [tries - 1] log-and-sleep pairs. *)
Lemma lift_op_exhaustion (tries : Z) (delay : N) (s : state context W) :
  1 <= tries ->
  always_fails_retryably ExceptionToCheck op args ->
  exists e s',
    retry ExceptionToCheck tries delay backoff (lift_op op) args s
      = (Raise e, s')
    /\ world s' = Nat.iter (Z.to_nat tries) (world_after op args) (world s)
    /\ trace s' = trace s
         ++ retry_pauses (backoff_delays delay backoff (Z.to_nat tries - 1))
    /\ sleeps (trace s') = sleeps (trace s)
         ++ backoff_delays delay backoff (Z.to_nat tries - 1)
    /\ fst (op args (Nat.iter (Z.to_nat tries - 1) (world_after op args)
                       (world s))) = Raise e.
Proof.
  intros Ht Hfail.
  assert (Hk : Z.to_nat tries = S (Z.to_nat tries - 1)) by lia.
  set (k := (Z.to_nat tries - 1)%nat) in *.
  destruct (Hfail (Nat.iter k (world_after op args) (world s)))
    as (e & He & _).
  exists e. eexists. unfold retry, f_retry.
  rewrite (f_retry_loop_failures k) by (try lia; intros; apply Hfail).
  split.
  - apply f_retry_loop_escape; [|left; lia].
    rewrite lift_op_run. simpl. rewrite He. reflexivity.
  - simpl. rewrite Hk. repeat split; auto.
    rewrite sleeps_app, sleeps_retry_pauses. reflexivity.
Qed.

Lemma backoff_delays_length delay n :
  length (backoff_delays delay backoff n) = n.
Proof. unfold backoff_delays. rewrite length_map, length_seq. reflexivity. Qed.

Lemma backoff_delays_nth n : forall delay i,
  (i < n)%nat ->
  nth_error (backoff_delays delay backoff n) i
  = Some (delay * backoff ^ N.of_nat i)%N.
Proof.
  induction n as [|n IH]; intros delay i Hi; [lia|].
  rewrite backoff_delays_S. destruct i as [|i]; simpl.
  - rewrite N.mul_1_r. reflexivity.
  - rewrite IH by lia. f_equal.
    rewrite <- N.mul_assoc, <- N.pow_succ_r', <- Nat2N.inj_succ. reflexivity.
Qed.

(** With every attempt failing on an error to retry on, the loop is its
    rounds, one per delay, followed by the bare final call. *)
Lemma f_retry_loop_rounds (f : Args -> M context W A) (a : Args) :
  (forall s0, exists e,
     fst (f a s0) = Raise e /\ ExceptionToCheck e = true) ->
  forall n mdelay s,
    f_retry_loop ExceptionToCheck backoff f a (Z.of_nat (S n)) mdelay s
    = f a (fold_left (retry_round f a) (backoff_delays mdelay backoff n) s).
Proof.
  intros Hfail n. induction n as [|n IH]; intros mdelay s.
  - rewrite f_retry_loop_eq. reflexivity.
  - destruct (Hfail s) as (e & He & Hc).
    destruct (f a s) as [r s1] eqn:Hf. simpl in He. subst r.
    rewrite (f_retry_loop_again f a _ _ s e s1) by (auto; lia).
    replace (Z.of_nat (S (S n)) - 1) with (Z.of_nat (S n)) by lia.
    rewrite IH, backoff_delays_S. cbn [fold_left].
    replace (retry_round f a s mdelay)
      with {| world := world s1; trace := trace s1 ++ retry_pauses [mdelay] |}
      by (unfold retry_round, attempt, pause; rewrite Hf; reflexivity).
    reflexivity.
Qed.

(** C3, as amended.  With [tries] at least 1, a decorated function that
    fails with a retryable error on every invocation is invoked exactly
    [tries] times: the run is [tries - 1] rounds, each one an invocation
    followed by the decorator's error record and its sleep, the sleeps
    being of [delay], [delay*backoff], [delay*backoff^2], ... seconds in
    this order, and then one last invocation made outside any handler, so
    that the outcome and the final state of the decorated call are those of
    that last invocation: its error is raised to the caller.  The function
    is arbitrary: whatever it does to the world and whatever records it
    leaves in the trace lie between the decorator's. *)
Theorem retry_exhaustion (f : Args -> M context W A) (tries : Z)
    (delay : N) (s : state context W) :
  1 <= tries ->
  (forall s0, exists e,
     fst (f args s0) = Raise e /\ ExceptionToCheck e = true) ->
  let delays := backoff_delays delay backoff (Z.to_nat tries - 1) in
  let s_last := fold_left (retry_round f args) delays s in
  retry ExceptionToCheck tries delay backoff f args s = f args s_last
  /\ S (length delays) = Z.to_nat tries
  /\ (forall i, (i < Z.to_nat tries - 1)%nat ->
        nth_error delays i = Some (delay * backoff ^ N.of_nat i)%N)
  /\ exists e,
       fst (retry ExceptionToCheck tries delay backoff f args s) = Raise e
       /\ fst (f args s_last) = Raise e.
Proof.
  intros Ht Hfail delays s_last.
  assert (Hrun : retry ExceptionToCheck tries delay backoff f args s
                 = f args s_last).
  { unfold retry, f_retry.
    replace tries with (Z.of_nat (S (Z.to_nat tries - 1))) at 1 by lia.
    apply f_retry_loop_rounds, Hfail. }
  split; [exact Hrun|]. split.
  { subst delays. rewrite backoff_delays_length. lia. }
  split.
  { intros i Hi. apply backoff_delays_nth, Hi. }
  destruct (Hfail s_last) as (e & He & _).
  exists e. rewrite Hrun. split; exact He.
Qed.

(** C8.  When an invocation fails with an error that is not among the
    retryable kinds, after [k] invocations that failed with retryable ones,
    the decorated call raises that error at once: the world is the one that
    invocation left (no further invocation is made), and the trace holds the
    [k] sleeps that preceded it and nothing after them (no log, no sleep). *)
Theorem retry_other_error_propagates (tries : Z) (delay : N)
    (s : state context W) (k : nat) (e : exn) (w' : W) :
  Z.of_nat k < Z.max 1 tries ->
  (forall i, (i < k)%nat -> exists e0,
     fst (op args (Nat.iter i (world_after op args) (world s))) = Raise e0
     /\ ExceptionToCheck e0 = true) ->
  op args (Nat.iter k (world_after op args) (world s)) = (Raise e, w') ->
  ExceptionToCheck e = false ->
  retry ExceptionToCheck tries delay backoff (lift_op op) args s
  = (Raise e,
     {| world := w';
        trace := trace s ++ retry_pauses (backoff_delays delay backoff k) |}).
Proof.
  intros Hk Hfail Hop He. unfold retry, f_retry.
  rewrite (f_retry_loop_failures k) by assumption.
  apply f_retry_loop_escape; [|right; exact He].
  unfold lift_op. cbn [world trace]. rewrite Hop. reflexivity.
Qed.

End RetryFacts.

(** Four tries, one second at first, doubling: the registry is asked four
    times, with sleeps of 1, 2 and 4 seconds between consecutive calls and
    none after the last. *)
Lemma retry_exhaustion_witness :
  1 <= 4
  /\ (forall s0, exists e,
        fst (traced_failure tt s0) = Raise e
        /\ isinstance_NeutronException e = true)
  /\ retry isinstance_NeutronException 4 1 2 traced_failure tt (start 0%nat)
     = (Raise (NeutronException "busy"),
        {| world := 4%nat;
           trace :=
             [EvDeletePort false (PStr "p1"); EvLog ERROR MSG_RETRYING;
              EvSleep 1;
              EvDeletePort false (PStr "p1"); EvLog ERROR MSG_RETRYING;
              EvSleep 2;
              EvDeletePort false (PStr "p1"); EvLog ERROR MSG_RETRYING;
              EvSleep 4;
              EvDeletePort false (PStr "p1")] |}).
Proof.
  assert (H1 : 1 <= 4) by lia.
  assert (H2 : forall s0 : state bool nat, exists e,
                 fst (traced_failure tt s0) = Raise e
                 /\ isinstance_NeutronException e = true)
    by (intros s0; eexists; split; reflexivity).
  split; [exact H1|]. split; [exact H2|].
  rewrite (proj1 (retry_exhaustion isinstance_NeutronException 2 tt
                    traced_failure 4 1 (start 0%nat) H1 H2)).
  vm_compute. reflexivity.
Defined.

(** C3, counterexample: with [tries = 0] an operation that fails with a
    retryable error on every invocation is invoked once, not zero times. *)
Lemma retry_zero_tries_invokes_once :
  retry isinstance_NeutronException 0 1 2 traced_failure tt (start 0%nat)
  = (Raise (NeutronException "busy"),
     {| world := 1%nat; trace := [EvDeletePort false (PStr "p1")] |}).
Proof. vm_compute. reflexivity. Qed.

(** A registry error, then an error of another kind: one sleep, two
    invocations, and the second error reaches the caller. *)
Lemma retry_other_error_propagates_witness :
  retry isinstance_NeutronException 4 1 2 (lift_op flaky_op) tt
        (start (context := bool) 0%nat)
  = (Raise (OtherException "broken"),
     {| world := 2%nat;
        trace := [EvLog ERROR "%(ex)s. Retrying in %(delay)d seconds.";
                  EvSleep 1] |}).
Proof.
  apply (retry_other_error_propagates (context := bool)
           isinstance_NeutronException 2 flaky_op tt 4 1 (start 0%nat) 1).
  - lia.
  - intros i Hi. assert (i = 0%nat) as -> by lia.
    eexists; split; reflexivity.
  - reflexivity.
  - reflexivity.
Defined.

(** ** The driver *)

Section DriverFacts.
Context {context W : Type}.
Variable env : collaborators context W.

(** *** Deleting *)

Lemma delete_undecorated_ok c port_id (s : state context W) w' :
  delete_port env c port_id (world s) = (Ret tt, w') ->
  _delete_resource_port_undecorated env (c, port_id) s
  = (Ret tt, {| world := w';
                trace := trace s ++ [EvDeletePort c port_id;
                                     EvLog INFO MSG_DELETED] |}).
Proof.
  intros H. unfold _delete_resource_port_undecorated. run. rewrite H. simpl.
  rewrite <- app_assoc. reflexivity.
Qed.

Lemma delete_undecorated_not_found c port_id (s : state context W) e w' :
  delete_port env c port_id (world s) = (Raise e, w') ->
  isinstance_PortNotFound e = true ->
  _delete_resource_port_undecorated env (c, port_id) s
  = (Ret tt, {| world := w';
                trace := trace s ++ [EvDeletePort c port_id;
                                     EvLog WARNING MSG_NOT_FOUND] |}).
Proof.
  intros H He. unfold _delete_resource_port_undecorated. run.
  rewrite H, He. simpl. rewrite <- app_assoc. reflexivity.
Qed.

Lemma delete_undecorated_error c port_id (s : state context W) e w' :
  delete_port env c port_id (world s) = (Raise e, w') ->
  isinstance_PortNotFound e = false ->
  _delete_resource_port_undecorated env (c, port_id) s
  = (Raise e, {| world := w'; trace := trace s ++ [EvDeletePort c port_id] |}).
Proof.
  intros H He. unfold _delete_resource_port_undecorated. run.
  rewrite H, He. reflexivity.
Qed.

Lemma delete_undecorated_raise_inv c port_id (s : state context W) e s1 :
  _delete_resource_port_undecorated env (c, port_id) s = (Raise e, s1) ->
  exists w w', delete_port env c port_id w = (Raise e, w').
Proof.
  unfold _delete_resource_port_undecorated. run.
  destruct (delete_port env c port_id (world s)) as [[[]|e0] w'] eqn:H;
    [discriminate|].
  destruct (isinstance_PortNotFound e0); [discriminate|].
  intros [= <- <-]. eauto.
Qed.

(** The decorated deletion stops at the first attempt that does not raise
    to the decorator. *)
Lemma delete_resource_port_return c port_id (s s1 : state context W) :
  _delete_resource_port_undecorated env (c, port_id) s = (Ret tt, s1) ->
  _delete_resource_port env c port_id s = (Ret tt, s1).
Proof. intros H. apply f_retry_loop_return, H. Qed.

(** Whatever the decorated deletion raises, the registry raised. *)
Lemma delete_resource_port_raise_inv c port_id (s s1 : state context W) e :
  _delete_resource_port env c port_id s = (Raise e, s1) ->
  exists w w', delete_port env c port_id w = (Raise e, w').
Proof.
  unfold _delete_resource_port, retry, f_retry.
  apply (f_retry_loop_raise_inv isinstance_NeutronException 2
           (_delete_resource_port_undecorated env) (c, port_id)
           (fun e => exists w w', delete_port env c port_id w = (Raise e, w')))
    with (n := Z.to_nat DELETION_ATTEMPTS); [|reflexivity].
  intros s0 e0 s2. apply delete_undecorated_raise_inv.
Qed.

(** With the port absent from the call, nothing is attempted. *)
Lemma delete_resources_null c tenant_id (s : state context W) :
  delete_hosting_device_resources env c tenant_id None s
  = (Ret tt, {| world := world s;
                trace := trace s ++ [EvDeleteResources c tenant_id None] |}).
Proof. reflexivity. Qed.

(** The shape of a deletion, by what the decorated deletion does. *)
Lemma delete_resources_some c tenant_id port port_id (s : state context W) :
  port !! "id" = Some port_id ->
  delete_hosting_device_resources env c tenant_id (Some port) s
  = match _delete_resource_port env c port_id
            {| world := world s;
               trace := trace s ++ [EvDeleteResources c tenant_id (Some port)] |}
    with
    | (Ret tt, s1) => (Ret tt, s1)
    | (Raise e, s1) =>
        if isinstance_NeutronException e
        then (Ret tt, {| world := world s1;
                         trace := trace s1 ++ [EvLog ERROR MSG_UNABLE_TO_DELETE] |})
        else (Raise e, s1)
    end.
Proof.
  intros Hid. unfold delete_hosting_device_resources, getitem. run.
  rewrite Hid.
  destruct (_delete_resource_port env c port_id _) as [[[]|e] s1]; [reflexivity|].
  destruct (isinstance_NeutronException e); reflexivity.
Qed.

Lemma delete_never_raises_registry_error c tenant_id mgmt_port
    (s : state context W) e :
  fst (delete_hosting_device_resources env c tenant_id mgmt_port s) = Raise e ->
  isinstance_NeutronException e = false.
Proof.
  destruct mgmt_port as [port|]; [|discriminate].
  destruct (port !! "id") as [port_id|] eqn:Hid.
  - rewrite (delete_resources_some _ _ _ port_id) by assumption.
    destruct (_delete_resource_port env c port_id _) as [[[]|e0] s1];
      [discriminate|].
    destruct (isinstance_NeutronException e0) eqn:He0; [discriminate|].
    intros [= <-]. exact He0.
  - unfold delete_hosting_device_resources, getitem. run. rewrite Hid.
    intros [= <-]. reflexivity.
Qed.

Lemma delete_returns_under_registry_errors c tenant_id mgmt_port
    (s : state context W) :
  (forall port_id w e w',
     delete_port env c port_id w = (Raise e, w') ->
     isinstance_NeutronException e = true) ->
  (forall port, mgmt_port = Some port -> is_Some (port !! "id")) ->
  fst (delete_hosting_device_resources env c tenant_id mgmt_port s) = Ret tt.
Proof.
  intros Hreg Hid. destruct mgmt_port as [port|]; [|reflexivity].
  destruct (Hid port eq_refl) as [port_id Hp].
  rewrite (delete_resources_some _ _ _ port_id) by assumption.
  destruct (_delete_resource_port env c port_id _) as [[[]|e] s1] eqn:Hrun;
    [reflexivity|].
  apply delete_resource_port_raise_inv in Hrun as (w & w' & Hdel).
  rewrite (Hreg _ _ _ _ Hdel). reflexivity.
Qed.

Lemma delete_not_found c tenant_id port port_id (s : state context W) e w' :
  port !! "id" = Some port_id ->
  delete_port env c port_id (world s) = (Raise e, w') ->
  isinstance_PortNotFound e = true ->
  delete_hosting_device_resources env c tenant_id (Some port) s
  = (Ret tt, {| world := w';
                trace := trace s ++ [EvDeleteResources c tenant_id (Some port);
                                     EvDeletePort c port_id;
                                     EvLog WARNING MSG_NOT_FOUND] |}).
Proof.
  intros Hid Hdel He. rewrite (delete_resources_some _ _ _ port_id) by assumption.
  rewrite (delete_resource_port_return c port_id _ _
             (delete_undecorated_not_found c port_id
                {| world := world s;
                   trace := trace s ++ [EvDeleteResources c tenant_id (Some port)] |}
                e w' Hdel He)).
  simpl. rewrite <- app_assoc. reflexivity.
Qed.

Lemma delete_found c tenant_id port port_id (s : state context W) w' :
  port !! "id" = Some port_id ->
  delete_port env c port_id (world s) = (Ret tt, w') ->
  delete_hosting_device_resources env c tenant_id (Some port) s
  = (Ret tt, {| world := w';
                trace := trace s ++ [EvDeleteResources c tenant_id (Some port);
                                     EvDeletePort c port_id;
                                     EvLog INFO MSG_DELETED] |}).
Proof.
  intros Hid Hdel. rewrite (delete_resources_some _ _ _ port_id) by assumption.
  rewrite (delete_resource_port_return c port_id _ _
             (delete_undecorated_ok c port_id
                {| world := world s;
                   trace := trace s ++ [EvDeleteResources c tenant_id (Some port)] |}
                w' Hdel)).
  simpl. rewrite <- app_assoc. reflexivity.
Qed.

Lemma delete_exhaustion c tenant_id port port_id (s : state context W) :
  port !! "id" = Some port_id ->
  (forall w, exists e,
     fst (delete_port env c port_id w) = Raise e
     /\ isinstance_NeutronException e = true
     /\ isinstance_PortNotFound e = false) ->
  delete_hosting_device_resources env c tenant_id (Some port) s
  = (Ret tt,
     {| world := Nat.iter 4 (fun w => snd (delete_port env c port_id w)) (world s);
        trace := trace s ++
          [EvDeleteResources c tenant_id (Some port);
           EvDeletePort c port_id; EvLog ERROR MSG_RETRYING; EvSleep 1;
           EvDeletePort c port_id; EvLog ERROR MSG_RETRYING; EvSleep 2;
           EvDeletePort c port_id; EvLog ERROR MSG_RETRYING; EvSleep 4;
           EvDeletePort c port_id; EvLog ERROR MSG_UNABLE_TO_DELETE] |}).
Proof.
  intros Hid Hfail. rewrite (delete_resources_some _ _ _ port_id) by assumption.
  assert (Hstep : forall s0 : state context W, exists e,
            _delete_resource_port_undecorated env (c, port_id) s0
            = (Raise e, {| world := snd (delete_port env c port_id (world s0));
                           trace := trace s0 ++ [EvDeletePort c port_id] |})
            /\ isinstance_NeutronException e = true).
  { intros s0. destruct (Hfail (world s0)) as (e & He & Hn & Hp).
    destruct (delete_port env c port_id (world s0)) as [r w'] eqn:Hd.
    simpl in He. subst r. exists e. split; [|exact Hn].
    apply delete_undecorated_error; assumption. }
  unfold _delete_resource_port, retry, f_retry.
  repeat match goal with
  | |- context [f_retry_loop _ _ _ _ ?m _ ?s0] =>
      let e := fresh "e" in let H := fresh "H" in let Hn := fresh "Hn" in
      destruct (Hstep s0) as (e & H & Hn);
      first [ erewrite f_retry_loop_again by (first [exact H | exact Hn | unfold DELETION_ATTEMPTS; lia])
            | erewrite f_retry_loop_escape by (first [exact H | left; unfold DELETION_ATTEMPTS; lia]) ];
      clear H
  end.
  match goal with
  | H : isinstance_NeutronException ?e = true
    |- context [isinstance_NeutronException ?e] => rewrite H
  end.
  simpl. repeat rewrite <- app_assoc. reflexivity.
Qed.

Lemma deletions_app (tr1 tr2 : list (event context)) :
  deletions (tr1 ++ tr2) = deletions tr1 ++ deletions tr2.
Proof.
  induction tr1 as [|[] tr1 IH]; simpl; rewrite ?IH; reflexivity.
Qed.

Lemma cleanups_app (tr1 tr2 : list (event context)) :
  cleanups (tr1 ++ tr2) = cleanups tr1 ++ cleanups tr2.
Proof.
  induction tr1 as [|[] tr1 IH]; simpl; rewrite ?IH; reflexivity.
Qed.

(** C2, as amended.  [delete_hosting_device_resources] never lets a registry
    error (an [n_exc.NeutronException], not-found included) reach its caller,
    and it returns normally whenever the registry's delete fails with
    registry errors only and the port carries an identifier.  In particular:
    when the registry reports the port as not found, the deletion completes
    normally after that single delete, with a warning logged; so deleting
    the same port twice in a row, the second time on a registry that no
    longer has it, returns normally both times.  And when the registry's
    delete fails on every attempt with a registry error other than not-found,
    the delete is invoked exactly [DELETION_ATTEMPTS] = 4 times, with sleeps
    of 1, 2 and 4 seconds in between, and the call still returns normally,
    the failure being logged only. *)
Theorem delete_swallows_registry_errors c tenant_id
    (mgmt_port : option pydict) (s : state context W) :
  let run := delete_hosting_device_resources env c tenant_id mgmt_port in
  (forall e, fst (run s) = Raise e -> isinstance_NeutronException e = false)
  /\ ((forall port_id w e w',
         delete_port env c port_id w = (Raise e, w') ->
         isinstance_NeutronException e = true) ->
      (forall port, mgmt_port = Some port -> is_Some (port !! "id")) ->
      fst (run s) = Ret tt)
  /\ (forall port port_id e w',
        mgmt_port = Some port -> port !! "id" = Some port_id ->
        delete_port env c port_id (world s) = (Raise e, w') ->
        isinstance_PortNotFound e = true ->
        run s = (Ret tt,
                 {| world := w';
                    trace := trace s ++ [EvDeleteResources c tenant_id mgmt_port;
                                         EvDeletePort c port_id;
                                         EvLog WARNING MSG_NOT_FOUND] |}))
  /\ (forall port port_id w1 e w2,
        mgmt_port = Some port -> port !! "id" = Some port_id ->
        delete_port env c port_id (world s) = (Ret tt, w1) ->
        delete_port env c port_id w1 = (Raise e, w2) ->
        isinstance_PortNotFound e = true ->
        exists s1 s2,
          run s = (Ret tt, s1) /\ run s1 = (Ret tt, s2)
          /\ world s2 = w2
          /\ deletions (trace s2) = deletions (trace s) ++ [port_id; port_id])
  /\ (forall port port_id,
        mgmt_port = Some port -> port !! "id" = Some port_id ->
        (forall w, exists e,
           fst (delete_port env c port_id w) = Raise e
           /\ isinstance_NeutronException e = true
           /\ isinstance_PortNotFound e = false) ->
        run s = (Ret tt,
          {| world := Nat.iter (Z.to_nat DELETION_ATTEMPTS)
                        (fun w => snd (delete_port env c port_id w)) (world s);
             trace := trace s ++
               [EvDeleteResources c tenant_id mgmt_port;
                EvDeletePort c port_id; EvLog ERROR MSG_RETRYING; EvSleep 1;
                EvDeletePort c port_id; EvLog ERROR MSG_RETRYING; EvSleep 2;
                EvDeletePort c port_id; EvLog ERROR MSG_RETRYING; EvSleep 4;
                EvDeletePort c port_id; EvLog ERROR MSG_UNABLE_TO_DELETE] |})).
Proof.
  intros run. subst run. repeat apply conj.
  - apply delete_never_raises_registry_error.
  - apply delete_returns_under_registry_errors.
  - intros port port_id e w' -> Hid Hdel He.
    eapply delete_not_found; eassumption.
  - intros port port_id w1 e w2 -> Hid Hdel1 Hdel2 He.
    do 2 eexists. split; [apply delete_found; eassumption|].
    split; [eapply delete_not_found; [eassumption | exact Hdel2 | exact He]|].
    split; [reflexivity|]. simpl. rewrite !deletions_app, <- app_assoc.
    reflexivity.
  - intros port port_id -> Hid Hfail. apply delete_exhaustion; assumption.
Qed.

(** *** Creating *)

Lemma truthy_get_nonempty (d : pydict) k :
  truthy (dict_get d k) = true -> truthy (PDict d) = true.
Proof.
  unfold dict_get. destruct (d !! k) as [v|] eqn:Hk; [|discriminate].
  intros _. simpl. destruct (size d) eqn:Hsz; [|reflexivity].
  apply map_size_empty_iff in Hsz. subst d. rewrite lookup_empty in Hk.
  discriminate.
Qed.

Lemma truthy_get_getitem (d : pydict) k :
  truthy (dict_get d k) = true -> getitem d k = Ret (dict_get d k).
Proof.
  unfold dict_get, getitem. destruct (d !! k); [reflexivity|discriminate].
Qed.

(** When the guard passes, the registry is asked to create the port, and
    what follows depends on its answer alone. *)
Lemma create_attempted c complementary_id tenant_id d max_hosted
    (s : state context W) :
  truthy (dict_get d "mgmt_nw_id") = true ->
  truthy tenant_id = true ->
  let p_spec := p_spec_of tenant_id (dict_get d "mgmt_nw_id") complementary_id in
  create_hosting_device_resources env c complementary_id tenant_id (Some d)
                                  max_hosted s
  = match create_port env c p_spec (world s) with
    | (Ret p, w') =>
        (Ret (bundle (Some p)),
         {| world := w'; trace := trace s ++ [EvCreatePort c p_spec] |})
    | (Raise e, w') =>
        if isinstance_NeutronException e
        then (Ret (bundle None),
              {| world := w';
                 trace := trace s ++ [EvCreatePort c p_spec;
                                      EvLog ERROR MSG_CREATE_FAILED;
                                      EvDeleteResources c tenant_id None] |})
        else (Raise e,
              {| world := w'; trace := trace s ++ [EvCreatePort c p_spec] |})
    end.
Proof.
  intros Hnw Ht p_spec. unfold create_hosting_device_resources.
  rewrite (truthy_get_nonempty _ _ Hnw), Hnw, Ht. simpl andb. cbv iota.
  rewrite (truthy_get_getitem _ _ Hnw). run. fold p_spec.
  destruct (create_port env c p_spec (world s)) as [[p|e] w']; [reflexivity|].
  destruct (isinstance_NeutronException e); [|reflexivity].
  unfold delete_hosting_device_resources. run.
  rewrite <- !app_assoc. reflexivity.
Qed.

(** C9.  When the management context names no management network (it is
    null, or its [mgmt_nw_id] is absent, null or empty) or the tenant id is
    empty, [create_hosting_device_resources] returns the bundle
    [{'mgmt_port': None, 'ports': []}] and leaves the state as it found it:
    the registry is not called (the world is untouched and nothing is added
    to the trace, so no [EvCreatePort]). *)
Theorem create_without_mgmt_network_or_tenant c complementary_id tenant_id
    mgmt_context max_hosted (s : state context W) :
  names_mgmt_network mgmt_context = false \/ truthy tenant_id = false ->
  create_hosting_device_resources env c complementary_id tenant_id
                                  mgmt_context max_hosted s
  = (Ret {[ "mgmt_port" := PNone; "ports" := PList [] ]}, s).
Proof.
  intros H. unfold create_hosting_device_resources.
  destruct mgmt_context as [d|]; [|reflexivity].
  simpl in H.
  assert (truthy (PDict d) && truthy (dict_get d "mgmt_nw_id")
          && truthy tenant_id = false) as ->.
  { destruct H as [-> | ->]; [rewrite andb_false_r|rewrite andb_false_r];
      reflexivity. }
  reflexivity.
Qed.

(** C4, as amended.  When the registry's port creation fails with a
    registry error (an [n_exc.NeutronException]),
    [delete_hosting_device_resources] is invoked exactly once as cleanup,
    with the port reference available at that time, which is null, and the
    call returns the bundle whose management port is null. *)
Theorem create_failure_rolls_back c complementary_id tenant_id d max_hosted
    (s : state context W) e w' :
  truthy (dict_get d "mgmt_nw_id") = true ->
  truthy tenant_id = true ->
  let p_spec := p_spec_of tenant_id (dict_get d "mgmt_nw_id") complementary_id in
  create_port env c p_spec (world s) = (Raise e, w') ->
  isinstance_NeutronException e = true ->
  exists s',
    create_hosting_device_resources env c complementary_id tenant_id (Some d)
                                    max_hosted s
      = (Ret {[ "mgmt_port" := PNone; "ports" := PList [] ]}, s')
    /\ trace s' = trace s ++ [EvCreatePort c p_spec;
                              EvLog ERROR MSG_CREATE_FAILED;
                              EvDeleteResources c tenant_id None]
    /\ cleanups (trace s') = cleanups (trace s) ++ [None].
Proof.
  intros Hnw Ht p_spec Hc He. eexists.
  rewrite create_attempted by assumption. fold p_spec. rewrite Hc, He.
  split; [reflexivity|]. simpl. split; [reflexivity|].
  rewrite cleanups_app. reflexivity.
Qed.

(** C10.  In every run of [create_hosting_device_resources] in which the
    registry's port creation fails, whatever the error: every cleanup call
    made receives a null port reference, no registry delete is issued, and
    the world is the one the failed creation left, so the rollback changes
    nothing in the registry. *)
Theorem create_failure_issues_no_delete c complementary_id tenant_id d
    max_hosted (s : state context W) e w' :
  truthy (dict_get d "mgmt_nw_id") = true ->
  truthy tenant_id = true ->
  create_port env c
    (p_spec_of tenant_id (dict_get d "mgmt_nw_id") complementary_id) (world s)
    = (Raise e, w') ->
  let s' := snd (create_hosting_device_resources env c complementary_id
                   tenant_id (Some d) max_hosted s) in
  exists evs,
    trace s' = trace s ++ evs
    /\ Forall (fun mgmt_port => mgmt_port = None) (cleanups evs)
    /\ deletions evs = []
    /\ world s' = w'.
Proof.
  intros Hnw Ht Hc s'. subst s'.
  rewrite create_attempted by assumption. rewrite Hc.
  destruct (isinstance_NeutronException e); simpl; eexists;
    (split; [reflexivity|]); simpl; repeat constructor.
Qed.

(** *** Discovering *)

Lemma find_filter {A} (F P : A -> bool) (l : list A) :
  List.find P (List.filter F l) = List.find (fun x => F x && P x) l.
Proof.
  induction l as [|x l IH]; [reflexivity|]. simpl.
  destruct (F x); simpl; [destruct (P x)|]; auto.
Qed.

Lemma before_first_filter {A} (F P : A -> bool) (l : list A) :
  before_first P (List.filter F l)
  = List.filter F (before_first (fun x => F x && P x) l).
Proof.
  induction l as [|x l IH]; [reflexivity|]. simpl.
  destruct (F x) eqn:HF; simpl; [destruct (P x); simpl; rewrite ?HF|rewrite HF];
    congruence.
Qed.

Lemma for_port_in_query_run mgmt_nw_id (query : list Port) :
  forall s : state context W,
  for_port_in_query query mgmt_nw_id None s
  = (Ret (List.find (on_network mgmt_nw_id) query),
     {| world := world s;
        trace := trace s
          ++ List.map (fun _ => EvLog DEBUG MSG_IGNORING_PORT)
               (before_first (on_network mgmt_nw_id) query) |}).
Proof.
  induction query as [|port rest IH]; intros s; simpl.
  - rewrite app_nil_r. destruct s; reflexivity.
  - unfold on_network at 1 3. destruct (py_eq_str _ _); simpl.
    + rewrite app_nil_r. destruct s; reflexivity.
    + run. rewrite IH. simpl. rewrite <- app_assoc. reflexivity.
Qed.

Lemma find_first {A} (P : A -> bool) (l : list A) :
  match List.find P l with
  | Some x =>
      exists before after,
        l = before ++ x :: after
        /\ P x = true
        /\ Forall (fun y => P y = false) before
  | None => Forall (fun y => P y = false) l
  end.
Proof.
  induction l as [|y l IH]; simpl; [constructor|].
  destruct (P y) eqn:Hy.
  - exists [], l. repeat split; [exact Hy|constructor].
  - destruct (List.find P l) as [x|].
    + destruct IH as (before & after & -> & Hx & Hb).
      exists (y :: before), after. repeat split; [exact Hx|].
      constructor; assumption.
    + constructor; assumption.
Qed.

(** C5.  Whatever sequence of ports the registry enumerates,
    [get_hosting_device_resources] returns as management port the first
    port, in enumeration order, whose device-id equals the hosting device
    id or whose device-owner equals the complementary id, and whose network
    is the management network: that port qualifies and no port enumerated
    before it does; [None] when no enumerated port qualifies.  The ports
    enumerated before it that have one of the two keys are on other
    networks: each is passed over with a debug record, and nothing else
    happens (the world is unchanged). *)
Theorem get_selects_first_port_on_mgmt_network c id complementary_id
    tenant_id mgmt_nw_id (s : state context W) :
  let ports := query_Port env c (world s) in
  let has_key (port : Port) : bool :=
    py_eq_str id (port_device_id port)
    || py_eq_str complementary_id (port_device_owner port) in
  let on_mgmt_network (port : Port) : bool :=
    py_eq_str mgmt_nw_id (port_network_id port) in
  let qualifies (port : Port) : bool :=
    has_key port && on_mgmt_network port in
  let ignored := List.filter has_key (before_first qualifies ports) in
  get_hosting_device_resources env c id complementary_id tenant_id mgmt_nw_id s
  = (Ret {[ "mgmt_port" := List.find qualifies ports ]},
     {| world := world s;
        trace := trace s
          ++ List.map (fun _ => EvLog DEBUG MSG_IGNORING_PORT) ignored |})
  /\ match List.find qualifies ports with
     | Some port =>
         exists before after,
           ports = before ++ port :: after
           /\ qualifies port = true
           /\ Forall (fun earlier => qualifies earlier = false) before
     | None => Forall (fun port => qualifies port = false) ports
     end
  /\ Forall (fun port => on_mgmt_network port = false) ignored.
Proof.
  intros ports has_key on_mgmt_network qualifies ignored. split; [|split].
  - unfold get_hosting_device_resources. run.
    rewrite for_port_in_query_run. simpl.
    rewrite find_filter, before_first_filter. reflexivity.
  - apply find_first.
  - subst ignored. induction ports as [|p l IH]; simpl; [constructor|].
    destruct (qualifies p) eqn:Hq; simpl; [constructor|].
    destruct (has_key p) eqn:HF; [|exact IH].
    constructor; [|exact IH]. unfold qualifies in Hq. rewrite HF in Hq.
    exact Hq.
Qed.


(** *** Attaching *)

(** The three ways a call to [setup_logical_port_connectivity] can go once
    the administrative tenant is known and the port has an identifier. *)
Lemma setup_run c port_db hosting_device_id (s : state context W)
    l3admin_tenant_id w1 port_id :
  l3_tenant_id env (world s) = (Ret l3admin_tenant_id, w1) ->
  port_db !! "id" = Some port_id ->
  let body := ownership_reset l3admin_tenant_id in
  let updated := [EvL3TenantId; EvUpdatePort (elevated env c) port_id body] in
  setup_logical_port_connectivity env c port_db hosting_device_id s
  = match update_port env (elevated env c) port_id body w1 with
    | (Raise e, w2) =>
        (Raise e, {| world := w2; trace := trace s ++ updated |})
    | (Ret _, w2) =>
        let '(r, w3) := interface_attach env hosting_device_id port_id w2 in
        (Ret tt,
         {| world := w3;
            trace := trace s ++ updated
              ++ [EvInterfaceAttach hosting_device_id port_id;
                  if raised r then EvLog ERROR MSG_ATTACH_FAILED
                  else EvLog DEBUG MSG_SETUP_DONE] |})
    end.
Proof.
  intros Hl3 Hid body updated.
  unfold setup_logical_port_connectivity, getitem. run. rewrite Hl3, Hid.
  fold body. simpl.
  destruct (update_port env (elevated env c) port_id body w1) as [[u|e] w2];
    simpl; [|rewrite <- app_assoc; reflexivity].
  destruct (interface_attach env hosting_device_id port_id w2) as [[[]|e] w3];
    simpl; rewrite <- !app_assoc; reflexivity.
Qed.

(** C1, as amended.  An error raised by the compute-side interface attach
    is logged and not re-raised: once the administrative tenant is known,
    the port has an identifier and the ownership-reset update has returned,
    [setup_logical_port_connectivity] returns normally whatever the attach
    does, and when the attach raised, the last record of the trace is the
    error log. *)
Theorem setup_swallows_attach_errors c port_db hosting_device_id
    (s : state context W) l3admin_tenant_id w1 port_id u w2 :
  l3_tenant_id env (world s) = (Ret l3admin_tenant_id, w1) ->
  port_db !! "id" = Some port_id ->
  update_port env (elevated env c) port_id
              (ownership_reset l3admin_tenant_id) w1 = (Ret u, w2) ->
  exists s',
    setup_logical_port_connectivity env c port_db hosting_device_id s
      = (Ret tt, s')
    /\ (raised (fst (interface_attach env hosting_device_id port_id w2)) = true ->
        last (trace s') = Some (EvLog ERROR MSG_ATTACH_FAILED)).
Proof.
  intros Hl3 Hid Hup. rewrite (setup_run _ _ _ _ _ _ _ Hl3 Hid). rewrite Hup.
  destruct (interface_attach env hosting_device_id port_id w2) as [r w3].
  eexists. split; [reflexivity|]. simpl. intros ->.
  rewrite last_app. reflexivity.
Qed.

(** C6.  In every run of [setup_logical_port_connectivity], an interface
    attach in the part of the trace the run added is invoked with exactly
    the hosting device id and the port's id given to the call, and what
    precedes it is the lookup of the L3 admin tenant followed by the update
    of that port, under the elevated context, to [device_owner = ''],
    [device_id = ''] and [tenant_id] the L3 admin tenant.  And whenever that
    update returns, the attach is invoked, right after it. *)
Theorem setup_resets_ownership_before_attach c port_db hosting_device_id
    (s : state context W) :
  let s' := snd (setup_logical_port_connectivity env c port_db
                   hosting_device_id s) in
  (forall evs h p evs',
     trace s' = trace s ++ evs ++ EvInterfaceAttach h p :: evs' ->
     h = hosting_device_id
     /\ port_db !! "id" = Some p
     /\ exists l3admin_tenant_id w1,
          l3_tenant_id env (world s) = (Ret l3admin_tenant_id, w1)
          /\ evs = [EvL3TenantId;
                    EvUpdatePort (elevated env c) p
                      {[ "port" := PDict {[ "device_owner" := PStr "";
                                            "device_id" := PStr "";
                                            "tenant_id" := l3admin_tenant_id ]} ]}])
  /\ (forall l3admin_tenant_id w1 port_id u w2,
       l3_tenant_id env (world s) = (Ret l3admin_tenant_id, w1) ->
       port_db !! "id" = Some port_id ->
       update_port env (elevated env c) port_id
                   (ownership_reset l3admin_tenant_id) w1 = (Ret u, w2) ->
       exists logged,
         trace s' = trace s
           ++ [EvL3TenantId;
               EvUpdatePort (elevated env c) port_id
                            (ownership_reset l3admin_tenant_id);
               EvInterfaceAttach hosting_device_id port_id;
               logged]).
Proof.
  intros s'. subst s'. split.
  - intros evs h p evs' Htr.
    destruct (l3_tenant_id env (world s)) as [[l3|e] w1] eqn:Hl3.
    2:{ exfalso. revert Htr.
        unfold setup_logical_port_connectivity. run. rewrite Hl3. simpl.
        intros Htr. apply app_inv_head in Htr.
        destruct evs as [|? [|? ?]]; discriminate. }
    destruct (port_db !! "id") as [port_id|] eqn:Hid.
    2:{ exfalso. revert Htr.
        unfold setup_logical_port_connectivity, getitem. run.
        rewrite Hl3, Hid. simpl.
        intros Htr. apply app_inv_head in Htr.
        destruct evs as [|? [|? ?]]; discriminate. }
    revert Htr. rewrite (setup_run _ _ _ _ _ _ _ Hl3 Hid).
    destruct (update_port _ _ _ _ _) as [[u|e] w2]; simpl.
    + destruct (interface_attach _ _ _ _) as [r w3]. simpl.
      intros Htr. apply app_inv_head in Htr.
      destruct evs as [|? [|? [|? [|? [|? ?]]]]]; simplify_eq/=;
        try (destruct (raised r); discriminate).
      split; [reflexivity|]. split; [reflexivity|]. eauto.
    + intros Htr. apply app_inv_head in Htr.
      destruct evs as [|? [|? [|? ?]]]; discriminate.
  - intros l3 w1 port_id u w2 Hl3 Hid Hup.
    rewrite (setup_run _ _ _ _ _ _ _ Hl3 Hid), Hup.
    destruct (interface_attach _ _ _ _) as [r w3]. simpl. eauto.
Qed.

(** *** Detaching *)

(** C7.  [teardown_logical_port_connectivity] never raises.  When the port
    record is null, or its identifier is absent or null, it logs an error
    and returns without calling the interface detach (the world is
    untouched).  Otherwise it calls the detach with the hosting device id
    and the port's id given to the call, and returns normally whether the
    detach returned (debug record) or raised (error record). *)
Theorem teardown_never_raises c port_db hosting_device_id
    (s : state context W) :
  exists s',
    teardown_logical_port_connectivity env c port_db hosting_device_id s
      = (Ret tt, s')
    /\ (identifier port_db = None ->
        s' = {| world := world s;
                trace := trace s ++ [EvLog ERROR MSG_PORT_ID_IS_NONE] |})
    /\ (forall port_id,
          identifier port_db = Some port_id ->
          let '(r, w') := interface_detach env hosting_device_id port_id
                                           (world s) in
          s' = {| world := w';
                  trace := trace s
                    ++ [EvInterfaceDetach hosting_device_id port_id;
                        if raised r then EvLog ERROR MSG_DETACH_FAILED
                        else EvLog DEBUG MSG_TEARDOWN_DONE] |}).
Proof.
  unfold teardown_logical_port_connectivity, identifier, dict_get, getitem.
  destruct port_db as [d|].
  2:{ eexists. split; [reflexivity|]. split; [reflexivity|discriminate]. }
  destruct (d !! "id") as [v|] eqn:Hid; simpl.
  2:{ eexists. split; [reflexivity|]. split; [reflexivity|discriminate]. }
  destruct v; simpl;
    try (eexists; split; [reflexivity|]; split; [reflexivity|discriminate]);
    run;
    match goal with
    | |- context [interface_detach env ?h ?p ?w] =>
        destruct (interface_detach env h p w) as [[[]|e] w'] eqn:Hd
    end; simpl;
    (eexists; split; [reflexivity|]; split; [discriminate|]);
    intros ? [= <-]; rewrite Hd; simpl; rewrite <- ?app_assoc; reflexivity.
Qed.

End DriverFacts.

(** ** Concrete runs of the driver *)

(** The registry keeps failing with a registry error: four deletions, sleeps
    of 1, 2 and 4 seconds, a normal return.  And on a registry that holds
    the port, deleting it twice in a row returns normally both times. *)
Lemma delete_swallows_registry_errors_witness :
  let env :=
    scripted_env [] None None (Some (NeutronException "busy")) None None in
  let port := port_dict_p1 in
  delete_hosting_device_resources env false (PStr "t1") (Some port)
                                  (start 0%nat)
  = (Ret tt,
     {| world := 4%nat;
        trace :=
          [EvDeleteResources false (PStr "t1") (Some port);
           EvDeletePort false (PStr "p1"); EvLog ERROR MSG_RETRYING; EvSleep 1;
           EvDeletePort false (PStr "p1"); EvLog ERROR MSG_RETRYING; EvSleep 2;
           EvDeletePort false (PStr "p1"); EvLog ERROR MSG_RETRYING; EvSleep 4;
           EvDeletePort false (PStr "p1"); EvLog ERROR MSG_UNABLE_TO_DELETE] |})
  /\ exists s1 s2,
       delete_hosting_device_resources registry_env false (PStr "t1")
         (Some port) (start ["p0"; "p1"]) = (Ret tt, s1)
       /\ delete_hosting_device_resources registry_env false (PStr "t1")
            (Some port) s1 = (Ret tt, s2)
       /\ world s2 = ["p0"]
       /\ deletions (trace s2) = [PStr "p1"; PStr "p1"].
Proof.
  intros env port. split.
  - apply (proj2 (proj2 (proj2 (proj2
             (delete_swallows_registry_errors env false (PStr "t1") (Some port)
                (start 0%nat))))) port (PStr "p1")).
    + reflexivity.
    + reflexivity.
    + intros w. exists (NeutronException "busy"). repeat split.
  - apply (proj1 (proj2 (proj2 (proj2
             (delete_swallows_registry_errors registry_env false (PStr "t1")
                (Some port) (start ["p0"; "p1"])))))
             port (PStr "p1") ["p0"] (PortNotFound "p1") ["p0"]);
      reflexivity.
Defined.

Lemma create_failure_rolls_back_witness :
  let env :=
    scripted_env [] (Some (NeutronException "quota exceeded")) None None None
                 None in
  exists s',
    create_hosting_device_resources env false (PStr "comp1") (PStr "t1")
      (Some mgmt_context_mgmt) (PStr "1") (start 0%nat)
      = (Ret {[ "mgmt_port" := PNone; "ports" := PList [] ]}, s')
    /\ trace s'
       = [EvCreatePort false
            (p_spec_of (PStr "t1") (PStr "mgmt") (PStr "comp1"));
          EvLog ERROR MSG_CREATE_FAILED;
          EvDeleteResources false (PStr "t1") None]
    /\ cleanups (trace s') = [None].
Proof.
  intros env.
  destruct (create_failure_rolls_back env false (PStr "comp1") (PStr "t1")
              mgmt_context_mgmt (PStr "1") (start 0%nat)
              (NeutronException "quota exceeded") 1%nat
              ltac:(vm_compute; reflexivity) ltac:(vm_compute; reflexivity)
              ltac:(vm_compute; reflexivity) ltac:(vm_compute; reflexivity))
    as (s' & Hrun & Htrace & Hclean).
  exists s'. split; [exact Hrun|]. split; [exact Htrace|exact Hclean].
Defined.

Lemma create_failure_issues_no_delete_witness :
  let env :=
    scripted_env [] (Some (NeutronException "quota exceeded")) None None None
                 None in
  exists evs,
    trace (snd (create_hosting_device_resources env false (PStr "comp1")
                  (PStr "t1") (Some mgmt_context_mgmt)
                  (PStr "1") (start 0%nat)))
      = [] ++ evs
    /\ Forall (fun mgmt_port => mgmt_port = None) (cleanups evs)
    /\ deletions evs = []
    /\ world (snd (create_hosting_device_resources env false (PStr "comp1")
                     (PStr "t1") (Some mgmt_context_mgmt)
                     (PStr "1") (start 0%nat))) = 1%nat.
Proof.
  intros env.
  apply (create_failure_issues_no_delete env false (PStr "comp1") (PStr "t1")
           mgmt_context_mgmt (PStr "1") (start 0%nat)
           (NeutronException "quota exceeded") 1%nat);
    reflexivity.
Defined.

Lemma create_without_mgmt_network_or_tenant_witness :
  names_mgmt_network (Some ∅) = false
  /\ truthy (PStr "") = false
  /\ create_hosting_device_resources registry_env false (PStr "comp1")
       (PStr "t1") (Some ∅) (PStr "1") (start [])
     = (Ret {[ "mgmt_port" := PNone; "ports" := PList [] ]}, start [])
  /\ create_hosting_device_resources registry_env false (PStr "comp1")
       (PStr "") (Some mgmt_context_mgmt) (PStr "1") (start [])
     = (Ret {[ "mgmt_port" := PNone; "ports" := PList [] ]}, start []).
Proof.
  split; [reflexivity|]. split; [reflexivity|]. split.
  - apply (create_without_mgmt_network_or_tenant registry_env).
    left. reflexivity.
  - apply (create_without_mgmt_network_or_tenant registry_env).
    right. reflexivity.
Defined.

Lemma setup_swallows_attach_errors_witness :
  let env :=
    scripted_env [] None None None (Some (OtherException "no such server"))
                 None in
  exists s',
    setup_logical_port_connectivity env false port_dict_p1
                                    (PStr "hd1") (start 0%nat)
      = (Ret tt, s')
    /\ last (trace s') = Some (EvLog ERROR MSG_ATTACH_FAILED).
Proof.
  intros env.
  destruct (setup_swallows_attach_errors env false port_dict_p1
              (PStr "hd1") (start 0%nat) (PStr "l3-admin") 0%nat (PStr "p1")
              (ownership_reset (PStr "l3-admin")) 1%nat
              ltac:(vm_compute; reflexivity) ltac:(vm_compute; reflexivity)
              ltac:(vm_compute; reflexivity)) as (s' & Hrun & Hlog).
  exists s'. split; [exact Hrun|]. apply Hlog. reflexivity.
Defined.

Lemma setup_resets_ownership_before_attach_witness :
  exists logged,
    trace (snd (setup_logical_port_connectivity registry_env false
                  port_dict_p1 (PStr "hd1") (start [])))
    = [] ++ [EvL3TenantId;
             EvUpdatePort true (PStr "p1")
               {[ "port" := PDict {[ "device_owner" := PStr "";
                                     "device_id" := PStr "";
                                     "tenant_id" := PStr "l3-admin" ]} ]};
             EvInterfaceAttach (PStr "hd1") (PStr "p1");
             logged].
Proof.
  apply (proj2 (setup_resets_ownership_before_attach registry_env false
                  port_dict_p1 (PStr "hd1") (start []))
           (PStr "l3-admin") [] (PStr "p1")
           (ownership_reset (PStr "l3-admin")) []);
    reflexivity.
Defined.

Lemma teardown_never_raises_witness :
  let env :=
    scripted_env [] None None None None (Some (OtherException "no such server"))
  in
  teardown_logical_port_connectivity env false None (PStr "hd1") (start 0%nat)
  = (Ret tt, {| world := 0%nat; trace := [EvLog ERROR MSG_PORT_ID_IS_NONE] |})
  /\ teardown_logical_port_connectivity env false (Some {[ "id" := PNone ]})
       (PStr "hd1") (start 0%nat)
     = (Ret tt, {| world := 0%nat; trace := [EvLog ERROR MSG_PORT_ID_IS_NONE] |})
  /\ teardown_logical_port_connectivity env false (Some port_dict_p1)
       (PStr "hd1") (start 0%nat)
     = (Ret tt, {| world := 1%nat;
                   trace := [EvInterfaceDetach (PStr "hd1") (PStr "p1");
                             EvLog ERROR MSG_DETACH_FAILED] |}).
Proof.
  intros env. repeat apply conj.
  - destruct (teardown_never_raises env false None (PStr "hd1") (start 0%nat))
      as (s' & Hrun & Hnone & _).
    rewrite Hrun, (Hnone eq_refl). reflexivity.
  - destruct (teardown_never_raises env false (Some {[ "id" := PNone ]})
                (PStr "hd1") (start 0%nat)) as (s' & Hrun & Hnone & _).
    rewrite Hrun, (Hnone eq_refl). reflexivity.
  - destruct (teardown_never_raises env false (Some port_dict_p1)
                (PStr "hd1") (start 0%nat)) as (s' & Hrun & _ & Hsome).
    rewrite Hrun. specialize (Hsome (PStr "p1") eq_refl). simpl in Hsome.
    rewrite Hsome. reflexivity.
Defined.

(** The dual-key discovery example: whichever of [p1] and [p2] the registry
    enumerates first is selected, and [p3], found by both keys but on
    another network, is passed over. *)
Example get_dual_key_p1_first :
  fst (get_hosting_device_resources (scripted_env [p3; p1; p2] None None None None None)
         false (PStr "hd1") (PStr "comp1") (PStr "t1") (PStr "mgmt") (start 0%nat))
  = Ret {[ "mgmt_port" := Some p1 ]}.
Proof. vm_compute. reflexivity. Qed.

Example get_dual_key_p2_first :
  fst (get_hosting_device_resources (scripted_env [p2; p3; p1] None None None None None)
         false (PStr "hd1") (PStr "comp1") (PStr "t1") (PStr "mgmt") (start 0%nat))
  = Ret {[ "mgmt_port" := Some p2 ]}.
Proof. vm_compute. reflexivity. Qed.

Example get_no_port_on_mgmt_network :
  fst (get_hosting_device_resources (scripted_env [p3] None None None None None)
         false (PStr "hd1") (PStr "comp1") (PStr "t1") (PStr "mgmt") (start 0%nat))
  = Ret {[ "mgmt_port" := None ]}.
Proof. vm_compute. reflexivity. Qed.

(** ** Where the driver lets an error through *)

(** C1, counterexample: the ownership-reset update raises; the error
    reaches the caller, nothing is logged and the attach is not invoked. *)
Lemma setup_update_error_propagates :
  setup_logical_port_connectivity
    (scripted_env [] None (Some (NeutronException "update failed")) None None None)
    false port_dict_p1 (PStr "hd1") (start 0%nat)
  = (Raise (NeutronException "update failed"),
     {| world := 1%nat;
        trace := [EvL3TenantId;
                  EvUpdatePort true (PStr "p1")
                               (ownership_reset (PStr "l3-admin"))] |}).
Proof. vm_compute. reflexivity. Qed.

(** C2, counterexample: the registry's delete raises an error that is not
    a [NeutronException]; it is neither retried nor swallowed. *)
Lemma delete_other_error_propagates :
  delete_hosting_device_resources
    (scripted_env [] None None (Some (OtherException "connection lost")) None None)
    false (PStr "t1") (Some port_dict_p1) (start 0%nat)
  = (Raise (OtherException "connection lost"),
     {| world := 1%nat;
        trace := [EvDeleteResources false (PStr "t1") (Some port_dict_p1);
                  EvDeletePort false (PStr "p1")] |}).
Proof. vm_compute. reflexivity. Qed.

(** C4, counterexample: the registry's port creation raises an error that
    is not a [NeutronException]; no cleanup is invoked and no bundle is
    returned. *)
Lemma create_other_error_propagates :
  create_hosting_device_resources
    (scripted_env [] (Some (OtherException "connection lost")) None None None None)
    false (PStr "comp1") (PStr "t1") (Some mgmt_context_mgmt)
    (PStr "1") (start 0%nat)
  = (Raise (OtherException "connection lost"),
     {| world := 1%nat;
        trace := [EvCreatePort false
                    (p_spec_of (PStr "t1") (PStr "mgmt") (PStr "comp1"))] |}).
Proof. vm_compute. reflexivity. Qed.

(** * Further properties *)

(** ** Further properties of the retry decorator *)

Section RetryMore.
Context {context W Args A : Type}.
Variable ExceptionToCheck : exn -> bool.
Variable backoff : N.

(** X2.  With [tries <= 1] (zero and negative values included) the
    decorator is transparent: the function is called once, outside any
    handler, so even an error of a retryable kind is raised to the caller,
    unlogged and without a sleep. *)
Theorem retry_single_try_is_transparent (f : Args -> M context W A)
    (args : Args) (tries : Z) (delay : N) (s : state context W) :
  tries <= 1 ->
  retry ExceptionToCheck tries delay backoff f args s = f args s.
Proof.
  intros Ht. unfold retry, f_retry. rewrite f_retry_loop_eq.
  destruct (Z.ltb_spec 1 tries); [lia|reflexivity].
Qed.

Variable op : Args -> W -> outcome A * W.
Variable args : Args.

(** X1.  When an invocation returns, after [k] invocations that failed with
    retryable errors, the decorated call returns that value at once: the
    world is the one that invocation left, and the trace holds the [k]
    log-and-sleep pairs that preceded it, with the delays [delay],
    [delay*backoff], ... *)
Theorem retry_returns_after_failures (tries : Z) (delay : N)
    (s : state context W) (k : nat) (a : A) (w' : W) :
  Z.of_nat k < Z.max 1 tries ->
  (forall i, (i < k)%nat -> exists e,
     fst (op args (Nat.iter i (world_after op args) (world s))) = Raise e
     /\ ExceptionToCheck e = true) ->
  op args (Nat.iter k (world_after op args) (world s)) = (Ret a, w') ->
  retry ExceptionToCheck tries delay backoff (lift_op op) args s
  = (Ret a,
     {| world := w';
        trace := trace s ++ retry_pauses (backoff_delays delay backoff k) |}).
Proof.
  intros Hk Hfail Hop. unfold retry, f_retry.
  rewrite (f_retry_loop_failures _ _ _ _ k) by assumption.
  apply f_retry_loop_return.
  unfold lift_op. cbn [world trace]. rewrite Hop. reflexivity.
Qed.

Lemma f_retry_loop_bounded (n : nat) :
  forall mtries mdelay (s : state context W),
  Z.to_nat (mtries - 1) = n ->
  exists k,
    (k <= n)%nat
    /\ (forall i, (i < k)%nat -> exists e,
          fst (op args (Nat.iter i (world_after op args) (world s))) = Raise e
          /\ ExceptionToCheck e = true)
    /\ f_retry_loop ExceptionToCheck backoff (lift_op op) args mtries mdelay s
       = (fst (op args (Nat.iter k (world_after op args) (world s))),
          {| world := Nat.iter (S k) (world_after op args) (world s);
             trace := trace s
               ++ retry_pauses (backoff_delays mdelay backoff k) |}).
Proof.
  induction n as [|n IH]; intros mtries mdelay s Hn.
  - exists 0%nat. split; [lia|]. split; [intros i Hi; lia|].
    rewrite f_retry_loop_eq. destruct (Z.ltb_spec 1 mtries); [lia|].
    rewrite lift_op_run. simpl. rewrite app_nil_r. reflexivity.
  - destruct (op args (world s)) as [r w1] eqn:Hop.
    assert (Hlift : lift_op op args s
                    = (r, {| world := w1; trace := trace s |})).
    { unfold lift_op. rewrite Hop. reflexivity. }
    assert (Hstop : f_retry_loop ExceptionToCheck backoff (lift_op op) args
                      mtries mdelay s
                    = (r, {| world := w1; trace := trace s |}) ->
            exists k,
              (k <= S n)%nat
              /\ (forall i, (i < k)%nat -> exists e,
                    fst (op args (Nat.iter i (world_after op args) (world s)))
                      = Raise e /\ ExceptionToCheck e = true)
              /\ f_retry_loop ExceptionToCheck backoff (lift_op op) args
                   mtries mdelay s
                 = (fst (op args (Nat.iter k (world_after op args) (world s))),
                    {| world := Nat.iter (S k) (world_after op args) (world s);
                       trace := trace s
                         ++ retry_pauses (backoff_delays mdelay backoff k) |})).
    { intros Hrun. exists 0%nat. split; [lia|]. split; [intros i Hi; lia|].
      rewrite Hrun. simpl. unfold world_after. rewrite Hop, app_nil_r.
      reflexivity. }
    destruct r as [a|e].
    + apply Hstop. apply f_retry_loop_return, Hlift.
    + destruct (ExceptionToCheck e) eqn:He.
      2:{ apply Hstop. apply f_retry_loop_escape; [exact Hlift|right; exact He]. }
      destruct (IH (mtries - 1) (mdelay * backoff)%N
                   {| world := w1; trace := trace s ++ retry_pauses [mdelay] |})
        as (k & Hk & Hfail & Hrun); [lia|].
      assert (Hw1 : w1 = world_after op args (world s))
        by (unfold world_after; rewrite Hop; reflexivity).
      cbn [world trace] in Hfail, Hrun. rewrite Hw1 in Hfail, Hrun.
      exists (S k). split; [lia|]. split.
      * intros [|i] Hi.
        -- exists e. simpl. rewrite Hop. auto.
        -- rewrite Nat.iter_succ_r. apply Hfail. lia.
      * rewrite (f_retry_loop_again _ _ _ args mtries mdelay s e _ ltac:(lia)
                   Hlift He).
        cbn [world trace]. rewrite Hw1, Hrun, backoff_delays_S.
        rewrite !Nat.iter_succ_r, <- app_assoc. reflexivity.
Qed.

(** X3.  Whatever the operation does, a decorated call makes at most
    [max 1 tries] invocations of it: there is a [k < max 1 tries] such that
    the first [k] invocations failed with retryable errors, the outcome of
    the call is the outcome of invocation [k + 1], no invocation follows
    it, and the trace holds exactly the [k] log-and-sleep pairs, with the
    delays [delay * backoff^i]. *)
Theorem retry_bounded (tries : Z) (delay : N) (s : state context W) :
  exists k,
    Z.of_nat k < Z.max 1 tries
    /\ (forall i, (i < k)%nat -> exists e,
          fst (op args (Nat.iter i (world_after op args) (world s))) = Raise e
          /\ ExceptionToCheck e = true)
    /\ retry ExceptionToCheck tries delay backoff (lift_op op) args s
       = (fst (op args (Nat.iter k (world_after op args) (world s))),
          {| world := Nat.iter (S k) (world_after op args) (world s);
             trace := trace s
               ++ retry_pauses (backoff_delays delay backoff k) |}).
Proof.
  destruct (f_retry_loop_bounded (Z.to_nat (tries - 1)) tries delay s eq_refl)
    as (k & Hk & Hfail & Hrun).
  exists k. split; [lia|]. split; [exact Hfail|exact Hrun].
Qed.

End RetryMore.

(** ** Further properties of the deletion *)

Section DeleteMore.
Context {context W : Type}.
Variable env : collaborators context W.
Variable c : context.
Variable port_id : pyval.

Local Abbreviation step := (after_delete env c port_id).

(** One attempt: the registry is asked once, the world moves one step, and
    the attempt itself never sleeps. *)
Lemma delete_undecorated_footprint (s : state context W) :
  let s1 := snd (_delete_resource_port_undecorated env (c, port_id) s) in
  world s1 = step (world s)
  /\ deletions (trace s1) = deletions (trace s) ++ [port_id]
  /\ sleeps (trace s1) = sleeps (trace s).
Proof.
  destruct (delete_port env c port_id (world s)) as [[[]|e] w'] eqn:Hd.
  - rewrite (delete_undecorated_ok env c port_id s w' Hd). simpl.
    rewrite deletions_app, sleeps_app, app_nil_r. unfold after_delete. rewrite Hd. auto.
  - destruct (isinstance_PortNotFound e) eqn:He.
    + rewrite (delete_undecorated_not_found env c port_id s e w' Hd He). simpl.
      rewrite deletions_app, sleeps_app, app_nil_r. unfold after_delete. rewrite Hd. auto.
    + rewrite (delete_undecorated_error env c port_id s e w' Hd He). simpl.
      rewrite deletions_app, sleeps_app, app_nil_r. unfold after_delete. rewrite Hd. auto.
Qed.

Lemma delete_loop_bounded (n : nat) :
  forall mtries mdelay (s : state context W),
  Z.to_nat (mtries - 1) = n ->
  let s' := snd (f_retry_loop isinstance_NeutronException 2
                   (_delete_resource_port_undecorated env) (c, port_id)
                   mtries mdelay s) in
  exists k,
    (k <= n)%nat
    /\ world s' = Nat.iter (S k) step (world s)
    /\ deletions (trace s') = deletions (trace s) ++ repeat port_id (S k)
    /\ sleeps (trace s') = sleeps (trace s) ++ backoff_delays mdelay 2 k.
Proof.
  induction n as [|n IH]; intros mtries mdelay s Hn s'; subst s';
    pose proof (delete_undecorated_footprint s) as Hfoot;
    destruct (_delete_resource_port_undecorated env (c, port_id) s)
      as [r s1] eqn:Hf; simpl in Hfoot; destruct Hfoot as (Hw & Hd & Hs).
  - exists 0%nat. rewrite f_retry_loop_eq.
    destruct (Z.ltb_spec 1 mtries); [lia|]. rewrite Hf. simpl.
    rewrite app_nil_r. auto.
  - assert (Hstop :
      f_retry_loop isinstance_NeutronException 2
        (_delete_resource_port_undecorated env) (c, port_id) mtries mdelay s
      = (r, s1) ->
      exists k,
        (k <= S n)%nat
        /\ world (snd (f_retry_loop isinstance_NeutronException 2
                         (_delete_resource_port_undecorated env) (c, port_id)
                         mtries mdelay s))
           = Nat.iter (S k) step (world s)
        /\ deletions (trace (snd (f_retry_loop isinstance_NeutronException 2
                         (_delete_resource_port_undecorated env) (c, port_id)
                         mtries mdelay s)))
           = deletions (trace s) ++ repeat port_id (S k)
        /\ sleeps (trace (snd (f_retry_loop isinstance_NeutronException 2
                         (_delete_resource_port_undecorated env) (c, port_id)
                         mtries mdelay s)))
           = sleeps (trace s) ++ backoff_delays mdelay 2 k).
    { intros ->. exists 0%nat. simpl. rewrite app_nil_r. split; [lia|auto]. }
    destruct r as [a|e].
    + apply Hstop. apply f_retry_loop_return, Hf.
    + destruct (isinstance_NeutronException e) eqn:He.
      2:{ apply Hstop. apply f_retry_loop_escape; [exact Hf|right; exact He]. }
      rewrite (f_retry_loop_again _ _ _ (c, port_id) mtries mdelay s e s1
                 ltac:(lia) Hf He).
      destruct (IH (mtries - 1) (mdelay * 2)%N
                   {| world := world s1;
                      trace := trace s1 ++ retry_pauses [mdelay] |}
                   ltac:(lia)) as (k & Hk & Hw' & Hd' & Hs').
      exists (S k). split; [lia|]. cbn [world trace] in Hw', Hd', Hs'.
      rewrite Hw', Hd', Hs'. rewrite deletions_app, sleeps_app, Hw, Hd, Hs.
      rewrite backoff_delays_S. simpl. rewrite ?app_nil_r, <- ?app_assoc.
      rewrite <- Nat.iter_succ_r. simpl. auto.
Qed.

(** X4.  Whatever the registry does, deleting a port that carries an
    identifier asks the registry at most [DELETION_ATTEMPTS] = 4 times, each
    time for that identifier, and sleeps between consecutive attempts only:
    for some [k <= 3] there are [k + 1] deletes and the sleeps are the first
    [k] of 1, 2, 4 seconds (7 seconds at most). *)
Theorem delete_attempts_bounded tenant_id (port : pydict)
    (s : state context W) :
  port !! "id" = Some port_id ->
  let s' := snd (delete_hosting_device_resources env c tenant_id (Some port)
                                                 s) in
  exists k,
    (k <= 3)%nat
    /\ world s' = Nat.iter (S k) (after_delete env c port_id)
                           (world s)
    /\ deletions (trace s') = deletions (trace s) ++ repeat port_id (S k)
    /\ sleeps (trace s') = sleeps (trace s) ++ backoff_delays 1 2 k.
Proof.
  intros Hid s'. subst s'.
  rewrite (delete_resources_some env c tenant_id port port_id s Hid).
  destruct (delete_loop_bounded 3 DELETION_ATTEMPTS 1
              {| world := world s;
                 trace := trace s
                   ++ [EvDeleteResources c tenant_id (Some port)] |} eq_refl)
    as (k & Hk & Hw & Hd & Hs).
  cbn [world trace] in Hw, Hd, Hs.
  rewrite deletions_app, sleeps_app in *. simpl in Hd, Hs.
  rewrite app_nil_r in Hd, Hs.
  exists k. split; [exact Hk|].
  unfold _delete_resource_port, retry, f_retry.
  destruct (f_retry_loop _ _ _ _ _ _ _) as [[[]|e] s1]; simpl in *; auto.
  destruct (isinstance_NeutronException e); simpl; auto.
  rewrite deletions_app, sleeps_app. simpl. rewrite !app_nil_r. auto.
Qed.

(** [k] failed attempts in a row, each one trapped by the decorator. *)
Lemma delete_loop_failures k :
  forall mtries mdelay (s : state context W),
  Z.of_nat k < Z.max 1 mtries ->
  (forall i, (i < k)%nat -> exists e,
     fst (delete_port env c port_id (Nat.iter i step (world s))) = Raise e
     /\ isinstance_NeutronException e = true
     /\ isinstance_PortNotFound e = false) ->
  f_retry_loop isinstance_NeutronException 2
    (_delete_resource_port_undecorated env) (c, port_id) mtries mdelay s
  = f_retry_loop isinstance_NeutronException 2
      (_delete_resource_port_undecorated env) (c, port_id)
      (mtries - Z.of_nat k) (mdelay * 2 ^ N.of_nat k)%N
      {| world := Nat.iter k step (world s);
         trace := trace s
           ++ failed_attempts c port_id (backoff_delays mdelay 2 k) |}.
Proof.
  induction k as [|k IH]; intros mtries mdelay s Hk Hfail.
  - simpl. rewrite app_nil_r, Z.sub_0_r, N.mul_1_r. destruct s; reflexivity.
  - destruct (Hfail 0%nat ltac:(lia)) as (e & He & Hn & Hp). simpl in He.
    destruct (delete_port env c port_id (world s)) as [r w1] eqn:Hd.
    simpl in He. subst r.
    rewrite (f_retry_loop_again _ _ _ (c, port_id) mtries mdelay s e _
               ltac:(lia)
               (delete_undecorated_error env c port_id s e w1 Hd Hp) Hn).
    rewrite IH; cbn [world trace].
    + assert (Hw1 : w1 = step (world s)) by (unfold after_delete; rewrite Hd; reflexivity).
      rewrite Hw1, <- Nat.iter_succ_r, backoff_delays_S.
      replace (mtries - 1 - Z.of_nat k) with (mtries - Z.of_nat (S k)) by lia.
      replace (mdelay * 2 * 2 ^ N.of_nat k)%N
        with (mdelay * 2 ^ N.of_nat (S k))%N
        by (rewrite Nat2N.inj_succ, N.pow_succ_r'; lia).
      simpl. rewrite <- !app_assoc. reflexivity.
    + lia.
    + intros i Hi. replace w1 with (step (world s))
        by (unfold step; rewrite Hd; reflexivity).
      rewrite <- Nat.iter_succ_r. apply Hfail. lia.
Qed.

(** X5.  When the registry's delete fails [k <= 3] times with a registry
    error other than not-found and then succeeds or reports the port as not
    found, [delete_hosting_device_resources] returns normally: [k + 1]
    deletes, [k] sleeps of 1, 2, 4 seconds, and a final info record
    (deleted) or warning (not found) instead of the error record. *)
Theorem delete_recovers_after_failures tenant_id (port : pydict)
    (s : state context W) (k : nat) r w' :
  port !! "id" = Some port_id ->
  (k <= 3)%nat ->
  (forall i, (i < k)%nat -> exists e,
     fst (delete_port env c port_id
            (Nat.iter i (after_delete env c port_id) (world s)))
       = Raise e
     /\ isinstance_NeutronException e = true
     /\ isinstance_PortNotFound e = false) ->
  delete_port env c port_id
    (Nat.iter k (after_delete env c port_id) (world s))
    = (r, w') ->
  match r with
  | Ret _ => True
  | Raise e => isinstance_PortNotFound e = true
  end ->
  delete_hosting_device_resources env c tenant_id (Some port) s
  = (Ret tt,
     {| world := w';
        trace := trace s
          ++ EvDeleteResources c tenant_id (Some port)
             :: failed_attempts c port_id (backoff_delays 1 2 k)
          ++ [EvDeletePort c port_id;
              if raised r then EvLog WARNING MSG_NOT_FOUND
              else EvLog INFO MSG_DELETED] |}).
Proof.
  intros Hid Hk Hfail Hlast Hr.
  rewrite (delete_resources_some env c tenant_id port port_id s Hid).
  unfold _delete_resource_port, retry, f_retry.
  rewrite (delete_loop_failures k) by (unfold DELETION_ATTEMPTS; try lia; exact Hfail).
  cbn [world trace].
  destruct r as [[]|e].
  - erewrite f_retry_loop_return
      by (apply delete_undecorated_ok; exact Hlast).
    simpl. rewrite <- !app_assoc. reflexivity.
  - erewrite f_retry_loop_return
      by (eapply delete_undecorated_not_found; [exact Hlast|exact Hr]).
    simpl. rewrite <- !app_assoc. reflexivity.
Qed.

(** X6.  A port dict without an [id] key makes
    [delete_hosting_device_resources] raise [KeyError]: the lookup is inside
    the [try], whose handler is for [NeutronException] only.  The registry is
    not called. *)
Theorem delete_missing_id_raises_KeyError tenant_id (port : pydict)
    (s : state context W) :
  port !! "id" = None ->
  delete_hosting_device_resources env c tenant_id (Some port) s
  = (Raise (KeyError "id"),
     {| world := world s;
        trace := trace s ++ [EvDeleteResources c tenant_id (Some port)] |}).
Proof.
  intros Hid. unfold delete_hosting_device_resources, getitem. run.
  rewrite Hid. reflexivity.
Qed.

End DeleteMore.

(** ** Further properties of the other driver methods *)

Section DriverMore.
Context {context W : Type}.
Variable env : collaborators context W.

(** X7.  When the management context names a network, the tenant id is
    not empty and the registry creates the port, the registry was asked
    once, for a port named [mgmt] on that network, owned by the tenant,
    administratively up, with unspecified MAC address and fixed IPs, an empty
    [device_id] and [device_owner] set to the complementary id; the result
    is the bundle of the created port and an empty port list, and nothing
    is logged or cleaned up. *)
Theorem create_success_returns_created_port c complementary_id tenant_id
    (d : pydict) max_hosted (s : state context W) mgmt_nw_id p w' :
  d !! "mgmt_nw_id" = Some mgmt_nw_id ->
  truthy mgmt_nw_id = true ->
  truthy tenant_id = true ->
  let p_spec : pydict :=
    {[ "port" := PDict
         {[ "tenant_id" := tenant_id;
            "admin_state_up" := PBool true;
            "name" := PStr "mgmt";
            "network_id" := mgmt_nw_id;
            "mac_address" := PNotSpecified;
            "fixed_ips" := PNotSpecified;
            "device_id" := PStr "";
            "device_owner" := complementary_id ]} ]} in
  create_port env c p_spec (world s) = (Ret p, w') ->
  create_hosting_device_resources env c complementary_id tenant_id (Some d)
                                  max_hosted s
  = (Ret {[ "mgmt_port" := PDict p; "ports" := PList [] ]},
     {| world := w'; trace := trace s ++ [EvCreatePort c p_spec] |}).
Proof.
  intros Hd Hnw Ht p_spec Hc.
  assert (Hget : dict_get d "mgmt_nw_id" = mgmt_nw_id)
    by (unfold dict_get; rewrite Hd; reflexivity).
  rewrite create_attempted by (rewrite ?Hget; assumption).
  rewrite Hget. fold p_spec. unfold p_spec_of. fold p_spec. rewrite Hc.
  reflexivity.
Qed.

(** X8.  In every run, [create_hosting_device_resources] asks the registry
    to create at most one port and never to delete one; it never raises a
    registry error; and when it returns, the bundle's [ports] is the empty
    list and its [mgmt_port] is either null or the very port the registry
    returned to the one creation request of this run. *)
Theorem create_never_deletes c complementary_id tenant_id mgmt_context
    max_hosted (s : state context W) :
  let run := create_hosting_device_resources env c complementary_id
               tenant_id mgmt_context max_hosted s in
  exists evs,
    trace (snd run) = trace s ++ evs
    /\ deletions evs = []
    /\ (length (creations evs) <= 1)%nat
    /\ match fst run with
       | Ret b =>
           b !! "ports" = Some (PList [])
           /\ (b !! "mgmt_port" = Some PNone
               \/ exists p_spec p,
                    creations evs = [p_spec]
                    /\ create_port env c p_spec (world s)
                       = (Ret p, world (snd run))
                    /\ b !! "mgmt_port" = Some (PDict p))
       | Raise e => isinstance_NeutronException e = false
       end.
Proof.
  intros run. subst run.
  match goal with
  | |- ?G =>
      assert (Hnone : create_hosting_device_resources env c complementary_id
                        tenant_id mgmt_context max_hosted s
                      = (Ret (bundle None), s) -> G)
  end.
  { intros ->. exists []. simpl. rewrite app_nil_r. repeat split; auto. }
  destruct mgmt_context as [d|]; [|apply Hnone; reflexivity].
  destruct (truthy (dict_get d "mgmt_nw_id")) eqn:Hnw.
  2:{ apply Hnone.
      unfold create_hosting_device_resources. rewrite Hnw, andb_false_r.
      reflexivity. }
  destruct (truthy tenant_id) eqn:Ht.
  2:{ apply Hnone.
      unfold create_hosting_device_resources. rewrite Ht, andb_false_r.
      reflexivity. }
  clear Hnone. rewrite create_attempted by assumption.
  destruct (create_port env c _ (world s)) as [[p|e] w'] eqn:Hc.
  - eexists. split; [reflexivity|]. simpl. repeat split; auto.
    right. eexists. exists p. split; [reflexivity|]. split; [exact Hc|].
    reflexivity.
  - destruct (isinstance_NeutronException e) eqn:He.
    + eexists. split; [reflexivity|]. simpl. repeat split; auto.
    + eexists. split; [reflexivity|]. simpl. repeat split; auto.
Qed.

(** X9.  The management port [get_hosting_device_resources] reports is one
    of the enumerated ports, found by device-id or by device-owner, and on
    the management network; it reports none only when no enumerated port is
    such. *)
Theorem get_result_sound_and_complete c id complementary_id tenant_id
    mgmt_nw_id (s : state context W) :
  let qualifies (port : Port) : Prop :=
    (py_eq_str id (port_device_id port) = true
     \/ py_eq_str complementary_id (port_device_owner port) = true)
    /\ py_eq_str mgmt_nw_id (port_network_id port) = true in
  exists mgmt_port,
    fst (get_hosting_device_resources env c id complementary_id tenant_id
                                      mgmt_nw_id s)
      = Ret {[ "mgmt_port" := mgmt_port ]}
    /\ match mgmt_port with
       | Some port => In port (query_Port env c (world s)) /\ qualifies port
       | None => forall port, In port (query_Port env c (world s)) ->
                              ~ qualifies port
       end.
Proof.
  intros qualifies. unfold get_hosting_device_resources. run.
  rewrite for_port_in_query_run. simpl. rewrite find_filter.
  eexists. split; [reflexivity|].
  destruct (List.find _ _) as [port|] eqn:Hfind.
  - apply List.find_some in Hfind as [Hin Hq]. split; [exact Hin|].
    apply andb_true_iff in Hq as [HF Hnet].
    unfold query_filter in HF. apply orb_true_iff in HF.
    split; [exact HF|exact Hnet].
  - intros port Hin [HF Hnet].
    pose proof (List.find_none _ _ Hfind port Hin) as Hq. simpl in Hq.
    unfold query_filter, on_network in Hq.
    apply orb_true_iff in HF. rewrite HF, Hnet in Hq. discriminate.
Qed.

(** X10.  When no enumerated port has the hosting device's id as device-id
    or the complementary id as device-owner (in particular when there is no
    port at all), [get_hosting_device_resources] reports no management port
    and leaves the state alone: nothing is logged. *)
Theorem get_without_matching_port c id complementary_id tenant_id
    mgmt_nw_id (s : state context W) :
  (forall port, In port (query_Port env c (world s)) ->
                py_eq_str id (port_device_id port) = false
                /\ py_eq_str complementary_id (port_device_owner port) = false) ->
  get_hosting_device_resources env c id complementary_id tenant_id mgmt_nw_id s
  = (Ret {[ "mgmt_port" := None ]}, s).
Proof.
  intros Hnone. unfold get_hosting_device_resources. run.
  assert (List.filter (query_filter id complementary_id)
                      (query_Port env c (world s)) = []) as ->.
  { induction (query_Port env c (world s)) as [|p l IH]; [reflexivity|].
    simpl. destruct (Hnone p (or_introl eq_refl)) as [H1 H2].
    unfold query_filter at 1. rewrite H1, H2. simpl.
    apply IH. intros q Hq. apply Hnone. right. exact Hq. }
  reflexivity.
Qed.

(** X11.  An error of the device manager's [l3_tenant_id] reaches the
    caller of [setup_logical_port_connectivity] as it is, before the port is
    updated or attached. *)
Theorem setup_tenant_lookup_failure_propagates c port_db hosting_device_id
    (s : state context W) e w1 :
  l3_tenant_id env (world s) = (Raise e, w1) ->
  setup_logical_port_connectivity env c port_db hosting_device_id s
  = (Raise e, {| world := w1; trace := trace s ++ [EvL3TenantId] |}).
Proof.
  intros Hl3. unfold setup_logical_port_connectivity. run. rewrite Hl3.
  reflexivity.
Qed.

(** X12.  A port record without an [id] key makes
    [setup_logical_port_connectivity] raise [KeyError], after the L3 admin
    tenant has been looked up and before any update or attach. *)
Theorem setup_missing_id_raises_KeyError c (port_db : pydict)
    hosting_device_id (s : state context W) l3admin_tenant_id w1 :
  l3_tenant_id env (world s) = (Ret l3admin_tenant_id, w1) ->
  port_db !! "id" = None ->
  setup_logical_port_connectivity env c port_db hosting_device_id s
  = (Raise (KeyError "id"),
     {| world := w1; trace := trace s ++ [EvL3TenantId] |}).
Proof.
  intros Hl3 Hid. unfold setup_logical_port_connectivity, getitem. run.
  rewrite Hl3, Hid. reflexivity.
Qed.

(** X13.  Setting up and then tearing down the connectivity of a port with
    a non-null identifier, when the ownership-reset update returns, always
    returns normally and detaches exactly what was attached: one update,
    one attach and one detach, in this order, the last two with the same
    hosting device id and port id, whether the attach or the detach fail. *)
Theorem setup_then_teardown c (port_db : pydict) hosting_device_id
    (s : state context W) l3admin_tenant_id w1 port_id u w2 :
  l3_tenant_id env (world s) = (Ret l3admin_tenant_id, w1) ->
  port_db !! "id" = Some port_id ->
  port_id <> PNone ->
  update_port env (elevated env c) port_id
              (ownership_reset l3admin_tenant_id) w1 = (Ret u, w2) ->
  let '(attached, w3) := interface_attach env hosting_device_id port_id w2 in
  let '(detached, w4) := interface_detach env hosting_device_id port_id w3 in
  (setup_logical_port_connectivity env c port_db hosting_device_id;;
   teardown_logical_port_connectivity env c (Some port_db) hosting_device_id)
    s
  = (Ret tt,
     {| world := w4;
        trace := trace s
          ++ [EvL3TenantId;
              EvUpdatePort (elevated env c) port_id
                           (ownership_reset l3admin_tenant_id);
              EvInterfaceAttach hosting_device_id port_id;
              if raised attached then EvLog ERROR MSG_ATTACH_FAILED
              else EvLog DEBUG MSG_SETUP_DONE;
              EvInterfaceDetach hosting_device_id port_id;
              if raised detached then EvLog ERROR MSG_DETACH_FAILED
              else EvLog DEBUG MSG_TEARDOWN_DONE] |}).
Proof.
  intros Hl3 Hid Hnn Hup.
  destruct (interface_attach env hosting_device_id port_id w2)
    as [attached w3] eqn:Hat.
  destruct (interface_detach env hosting_device_id port_id w3)
    as [detached w4] eqn:Hdt.
  unfold mbind at 1, M_bind at 1.
  rewrite (setup_run env c port_db hosting_device_id s l3admin_tenant_id w1
             port_id Hl3 Hid), Hup, Hat.
  unfold teardown_logical_port_connectivity, dict_get, getitem. rewrite Hid.
  simpl. destruct port_id; try congruence; run; rewrite Hdt;
    destruct detached as [[]|e]; simpl; rewrite <- !app_assoc; reflexivity.
Qed.

End DriverMore.

(** ** Concrete runs for the further properties *)

Lemma retry_returns_after_failures_witness :
  retry isinstance_NeutronException 4 1 2 (lift_op recovering_op) tt
        (start (context := bool) 0%nat)
  = (Ret tt,
     {| world := 2%nat; trace := [EvLog ERROR MSG_RETRYING; EvSleep 1] |}).
Proof.
  apply (retry_returns_after_failures (context := bool)
           isinstance_NeutronException 2 recovering_op tt 4 1 (start 0%nat) 1).
  - lia.
  - intros i Hi. assert (i = 0%nat) as -> by lia.
    eexists; split; reflexivity.
  - reflexivity.
Defined.

Lemma retry_single_try_is_transparent_witness :
  retry isinstance_NeutronException 0 1 2
        (lift_op (counting_failure (NeutronException "busy"))) tt
        (start (context := bool) 0%nat)
  = (Raise (NeutronException "busy"), {| world := 1%nat; trace := [] |}).
Proof.
  rewrite (retry_single_try_is_transparent (context := bool)
             isinstance_NeutronException 2
             (lift_op (counting_failure (NeutronException "busy"))) tt 0 1
             (start 0%nat)) by lia.
  reflexivity.
Defined.

Lemma delete_attempts_bounded_witness :
  let env :=
    scripted_env [] None None (Some (NeutronException "busy")) None None in
  exists k,
    (k <= 3)%nat
    /\ world (snd (delete_hosting_device_resources env false (PStr "t1")
                     (Some port_dict_p1) (start 0%nat)))
       = Nat.iter (S k) (after_delete env false (PStr "p1")) 0%nat
    /\ deletions (trace (snd (delete_hosting_device_resources env false
                                (PStr "t1") (Some port_dict_p1) (start 0%nat))))
       = [] ++ repeat (PStr "p1") (S k)
    /\ sleeps (trace (snd (delete_hosting_device_resources env false
                             (PStr "t1") (Some port_dict_p1) (start 0%nat))))
       = [] ++ backoff_delays 1 2 k.
Proof.
  intros env.
  exact (delete_attempts_bounded env false (PStr "p1") (PStr "t1")
           port_dict_p1 (start 0%nat) ltac:(vm_compute; reflexivity)).
Defined.

Lemma delete_recovers_after_failures_witness :
  delete_hosting_device_resources vanishing_port_env false (PStr "t1")
    (Some port_dict_p1) (start 0%nat)
  = (Ret tt,
     {| world := 2%nat;
        trace := [EvDeleteResources false (PStr "t1") (Some port_dict_p1);
                  EvDeletePort false (PStr "p1"); EvLog ERROR MSG_RETRYING;
                  EvSleep 1;
                  EvDeletePort false (PStr "p1");
                  EvLog WARNING MSG_NOT_FOUND] |}).
Proof.
  apply (delete_recovers_after_failures vanishing_port_env false (PStr "p1")
           (PStr "t1") port_dict_p1 (start 0%nat) 1
           (Raise (PortNotFound "p1")) 2%nat).
  - vm_compute; reflexivity.
  - lia.
  - intros i Hi. assert (i = 0%nat) as -> by lia.
    exists (NeutronException "busy"). repeat split.
  - reflexivity.
  - reflexivity.
Defined.

Lemma delete_missing_id_raises_KeyError_witness :
  delete_hosting_device_resources registry_env false (PStr "t1") (Some ∅)
                                  (start ["p1"])
  = (Raise (KeyError "id"),
     {| world := ["p1"];
        trace := [EvDeleteResources false (PStr "t1") (Some ∅)] |}).
Proof.
  apply (delete_missing_id_raises_KeyError registry_env false (PStr "t1") ∅
           (start ["p1"])).
  vm_compute; reflexivity.
Defined.

Lemma create_success_returns_created_port_witness :
  create_hosting_device_resources registry_env false (PStr "comp1")
    (PStr "t1") (Some mgmt_context_mgmt) (PStr "1") (start [])
  = (Ret {[ "mgmt_port" := PDict port_dict_p1; "ports" := PList [] ]},
     {| world := ["p1"];
        trace := [EvCreatePort false
                    (p_spec_of (PStr "t1") (PStr "mgmt") (PStr "comp1"))] |}).
Proof.
  exact (create_success_returns_created_port registry_env false (PStr "comp1")
           (PStr "t1") mgmt_context_mgmt (PStr "1") (start []) (PStr "mgmt")
           port_dict_p1 ["p1"]
           ltac:(vm_compute; reflexivity) ltac:(vm_compute; reflexivity)
           ltac:(vm_compute; reflexivity) ltac:(vm_compute; reflexivity)).
Defined.

Lemma get_without_matching_port_witness :
  get_hosting_device_resources
    (scripted_env [p1; p2; p3] None None None None None) false
    (PStr "hd9") (PStr "comp9") (PStr "t1") (PStr "mgmt") (start 0%nat)
  = (Ret {[ "mgmt_port" := None ]}, start 0%nat).
Proof.
  apply (get_without_matching_port
           (scripted_env [p1; p2; p3] None None None None None)).
  intros port [<-|[<-|[<-|[]]]]; split; reflexivity.
Defined.

Lemma setup_tenant_lookup_failure_propagates_witness :
  setup_logical_port_connectivity no_tenant_env false port_dict_p1
                                  (PStr "hd1") (start 0%nat)
  = (Raise (OtherException "identity service unreachable"),
     {| world := 1%nat; trace := [EvL3TenantId] |}).
Proof.
  apply (setup_tenant_lookup_failure_propagates no_tenant_env).
  reflexivity.
Defined.

Lemma setup_missing_id_raises_KeyError_witness :
  setup_logical_port_connectivity registry_env false ∅ (PStr "hd1") (start [])
  = (Raise (KeyError "id"), {| world := []; trace := [EvL3TenantId] |}).
Proof.
  apply (setup_missing_id_raises_KeyError registry_env false ∅ (PStr "hd1")
           (start []) (PStr "l3-admin") []).
  - reflexivity.
  - vm_compute; reflexivity.
Defined.

Lemma setup_then_teardown_witness :
  let env :=
    scripted_env [] None None None (Some (OtherException "no such server"))
                 None in
  (setup_logical_port_connectivity env false port_dict_p1 (PStr "hd1");;
   teardown_logical_port_connectivity env false (Some port_dict_p1)
                                      (PStr "hd1"))
    (start 0%nat)
  = (Ret tt,
     {| world := 3%nat;
        trace := [EvL3TenantId;
                  EvUpdatePort true (PStr "p1")
                               (ownership_reset (PStr "l3-admin"));
                  EvInterfaceAttach (PStr "hd1") (PStr "p1");
                  EvLog ERROR MSG_ATTACH_FAILED;
                  EvInterfaceDetach (PStr "hd1") (PStr "p1");
                  EvLog DEBUG MSG_TEARDOWN_DONE] |}).
Proof.
  intros env.
  exact (setup_then_teardown env false port_dict_p1 (PStr "hd1") (start 0%nat)
           (PStr "l3-admin") 0%nat (PStr "p1")
           (ownership_reset (PStr "l3-admin")) 1%nat
           ltac:(vm_compute; reflexivity) ltac:(vm_compute; reflexivity)
           ltac:(discriminate) ltac:(vm_compute; reflexivity)).
Defined.
